(** * DNS covert-channel listener (server/listeners/dns.py)

    A shallow embedding of [DNSListener]: the wire codec
    ([parse_dns_query], [build_dns_response], ...), the label encoder
    ([encode_data], [decode_data], on top of Python's [base64.b32encode]
    and [base64.b32decode]), the chunker ([split_data]), the query
    handlers and the reassembly sweep ([cleanup_task]).

    Conventions.
    - Python [bytes] are [list byte]; Python [str] is [list ascii].  Every
      string the listener handles comes out of [bytes.decode('ascii')] or
      out of the configuration, so code points stay below 128; [str.upper]
      and [str.lower] are modelled on that range.
    - Python exceptions are the [Raise] outcome of [result]; handlers that
      touch the listener's dictionaries or the database run in the state
      monad [M], which keeps the mutations made before a raise.
    - Dictionaries are stdpp [gmap]s.
    - [datetime] values are integers counting microseconds. *)

From Stdlib Require Import ZArith Lia List Bool DecimalString.
From Stdlib Require Import Strings.Ascii Strings.String Strings.Byte.
From stdpp Require Import base option list gmap strings.
Import ListNotations.
Local Open Scope Z_scope.

Abbreviation bytes := (list byte).
Abbreviation str := (list ascii).

(** ** Outcomes of Python code *)

Inductive exn : Type :=
| IndexError
| KeyError
| ValueError
| TypeError
| StructError
| ZeroDivisionError
| UnicodeError
| BinasciiError
| ValidationError
| ExternalError (tag : nat).

Inductive result (A : Type) : Type :=
| Ok (a : A)
| Raise (e : exn).
Arguments Ok {A} a.
Arguments Raise {A} e.

Definition rbind {A B} (r : result A) (k : A -> result B) : result B :=
  match r with
  | Ok a => k a
  | Raise e => Raise e
  end.

Notation "'let?' x := c 'in' k" := (rbind c (fun x => k))
  (at level 10, x pattern, c at level 200, k at level 200).

Definition is_ok {A} (r : result A) : bool :=
  match r with Ok _ => true | Raise _ => false end.

Fixpoint mapR {A B} (f : A -> result B) (l : list A) : result (list B) :=
  match l with
  | [] => Ok []
  | a :: l' => let? b := f a in let? bs := mapR f l' in Ok (b :: bs)
  end.

(** ** Bytes, text and slices *)

Definition lit (s : string) : str := list_ascii_of_string s.
Definition blit (s : string) : bytes := list_byte_of_string s.

Definition byteZ (b : byte) : Z := Z.of_N (Byte.to_N b).

Definition Z_to_byte (z : Z) : byte :=
  match Byte.of_N (Z.to_N (z mod 256)) with
  | Some b => b
  | None => x00
  end.

Definition chr (z : Z) : ascii := ascii_of_byte (Z_to_byte z).
Definition ord (c : ascii) : Z := byteZ (byte_of_ascii c).

(** [l[i:i+n] for i in range(0, len(l), n)] *)
Fixpoint slices_fuel {A} (fuel n : nat) (l : list A) : list (list A) :=
  match fuel with
  | O => []
  | S fuel' =>
      match l with
      | [] => []
      | _ => firstn n l :: slices_fuel fuel' n (skipn n l)
      end
  end.

Definition slices {A} (n : nat) (l : list A) : list (list A) :=
  slices_fuel (length l) n l.

(** [s.rstrip(c)] *)
Fixpoint lstrip (c : ascii) (s : str) : str :=
  match s with
  | [] => []
  | x :: s' => if Ascii.eqb x c then lstrip c s' else s
  end.

Definition rstrip (c : ascii) (s : str) : str := rev (lstrip c (rev s)).

(** [s.replace(a, b)] for one-character [a] and [b] *)
Definition replace_char (a b : ascii) (s : str) : str :=
  map (fun x => if Ascii.eqb x a then b else x) s.

Definition upper_char (c : ascii) : ascii :=
  let n := ord c in if (97 <=? n) && (n <=? 122) then chr (n - 32) else c.

Definition lower_char (c : ascii) : ascii :=
  let n := ord c in if (65 <=? n) && (n <=? 90) then chr (n + 32) else c.

Definition upper (s : str) : str := map upper_char s.
Definition lower (s : str) : str := map lower_char s.

(** [int.from_bytes(s)] (big endian) and [z.to_bytes(n)] *)
Definition from_bytes (s : bytes) : Z :=
  fold_left (fun acc b => acc * 256 + byteZ b) s 0.

Fixpoint to_bytes (n : nat) (z : Z) : bytes :=
  match n with
  | O => []
  | S n' => Z_to_byte (Z.shiftr z (8 * Z.of_nat n')) :: to_bytes n' z
  end.

(** ** base64.b32encode / base64.b32decode *)

Definition b32alphabet : str := lit "ABCDEFGHIJKLMNOPQRSTUVWXYZ234567".

Definition b32tab (i : Z) : ascii := nth (Z.to_nat i) b32alphabet "A"%char.

(** [b32tab2[x]]: the two characters of a ten-bit index *)
Definition b32tab2 (x : Z) : str := [b32tab (Z.shiftr x 5); b32tab (Z.land x 31)].

Fixpoint index_of (c : ascii) (l : str) (i : Z) : option Z :=
  match l with
  | [] => None
  | x :: l' => if Ascii.eqb x c then Some i else index_of c l' (i + 1)
  end.

(** [_b32rev[c]]; [None] is the [KeyError] *)
Definition b32rev (c : ascii) : option Z := index_of c b32alphabet 0.

Definition b32_quantum (g : bytes) : str :=
  let c := from_bytes g in
  b32tab2 (Z.shiftr c 30) ++ b32tab2 (Z.land (Z.shiftr c 20) 1023) ++
  b32tab2 (Z.land (Z.shiftr c 10) 1023) ++ b32tab2 (Z.land c 1023).

(** [encoded[-k:] = b'=' * k] *)
Definition pad_tail (k : nat) (e : str) : str :=
  firstn (length e - k) e ++ repeat "="%char k.

Definition b32encode (s : bytes) : str :=
  let leftover := (length s mod 5)%nat in
  let s' := if Nat.eqb leftover 0 then s else s ++ repeat x00 (5 - leftover) in
  let encoded := concat (map b32_quantum (slices 5 s')) in
  match leftover with
  | 1%nat => pad_tail 6 encoded
  | 2%nat => pad_tail 4 encoded
  | 3%nat => pad_tail 3 encoded
  | 4%nat => pad_tail 1 encoded
  | _ => encoded
  end.

(** The inner loop [for c in quanta: acc = (acc << 5) + b32rev[c]] *)
Fixpoint b32_acc (acc : Z) (q : str) : result Z :=
  match q with
  | [] => Ok acc
  | c :: q' =>
      match b32rev c with
      | Some v => b32_acc (Z.shiftl acc 5 + v) q'
      | None => Raise BinasciiError
      end
  end.

Definition is_ascii (c : ascii) : bool := ord c <? 128.

Definition b32decode (s : str) : result bytes :=
  if negb (forallb is_ascii s) then Raise ValueError else
  if negb (Nat.eqb (length s mod 8) 0) then Raise BinasciiError else
  let l := length s in
  let s := rstrip "="%char s in
  let padchars := (l - length s)%nat in
  let? accs := mapR (b32_acc 0) (slices 8 s) in
  let decoded := concat (map (to_bytes 5) accs) in
  if negb (existsb (Nat.eqb padchars) [0; 1; 3; 4; 6]%nat) then Raise BinasciiError else
  if negb (Nat.eqb padchars 0) && negb (Nat.eqb (length decoded) 0) then
    let acc := Z.shiftl (List.last accs 0) (5 * Z.of_nat padchars) in
    let last := to_bytes 5 acc in
    let leftover := Z.to_nat ((43 - 5 * Z.of_nat padchars) / 8) in
    Ok (firstn (length decoded - 5) decoded ++ firstn leftover last)
  else Ok decoded.

(** ** The label encoder *)

Definition encode_data (data : bytes) : str :=
  let encoded := lower (b32encode data) in
  let encoded := rstrip "="%char encoded in
  replace_char "/"%char "-"%char encoded.

Definition decode_data (encoded : str) : result bytes :=
  let padding := ((8 - length encoded mod 8) mod 8)%nat in
  let encoded := upper encoded ++ repeat "="%char padding in
  let encoded := replace_char "-"%char "/"%char encoded in
  b32decode encoded.


(** ** Auxiliary notions for the base-32 proofs *)

Definition digit (c i : Z) : Z := (c / 2 ^ (35 - 5 * i)) mod 32.

Definition b32_text (s : str) : Prop := Forall (fun c => In c b32alphabet) s.


(** The characters [b32encode] emits for the short tail of its input. *)
Definition tail_digits (t : bytes) : list Z :=
  match length t with
  | 1%nat => [0;1]
  | 2%nat => [0;1;2;3]
  | 3%nat => [0;1;2;3;4]
  | 4%nat => [0;1;2;3;4;5;6]
  | _ => []
  end.

Definition tail_pad (t : bytes) : nat :=
  match length t with
  | 1%nat => 6 | 2%nat => 4 | 3%nat => 3 | 4%nat => 1 | _ => 0
  end.

Definition tail_value (t : bytes) : Z := from_bytes (t ++ repeat x00 (5 - length t)).

Definition tail_text (t : bytes) : str :=
  map (fun i => b32tab (digit (tail_value t) i)) (tail_digits t).

(** Letters, digits and the hyphen: what a DNS label may hold. *)
Definition label_char (c : ascii) : bool :=
  let n := ord c in
  ((97 <=? n) && (n <=? 122)) || ((65 <=? n) && (n <=? 90)) ||
  ((48 <=? n) && (n <=? 57)) || (n =? 45).

(** ** More of Python's text and [struct] primitives *)

(** [s.split(c)] *)
Fixpoint split_on (c : ascii) (s : str) : list str :=
  match s with
  | [] => [[]]
  | x :: s' =>
      if Ascii.eqb x c then [] :: split_on c s'
      else match split_on c s' with
           | [] => [[x]]
           | p :: ps => (x :: p) :: ps
           end
  end.

(** [c.join(parts)] *)
Fixpoint join (c : ascii) (parts : list str) : str :=
  match parts with
  | [] => []
  | [p] => p
  | p :: ps => p ++ c :: join c ps
  end.

Definition str_eqb (a b : str) : bool := bool_decide (a = b).

(** [s.endswith(suffix)] *)
Definition endswith (s suffix : str) : bool :=
  str_eqb (skipn (length s - length suffix) s) suffix &&
  (length suffix <=? length s)%nat.

(** [str(z)] for an integer, as an f-string renders it *)
Definition str_of_Z (z : Z) : str := lit (NilZero.string_of_int (Z.to_int z)).

(** [data[a:b]] for non-negative [a] and [b] *)
Definition slice {A} (a b : nat) (l : list A) : list A := firstn (b - a) (skipn a l).

(** [bytes.decode('ascii')] *)
Definition decode_ascii (b : bytes) : result str :=
  if forallb (fun x => byteZ x <? 128) b then Ok (map ascii_of_byte b)
  else Raise UnicodeError.

(** [str.encode('ascii')] *)
Definition encode_ascii (s : str) : result bytes :=
  if forallb is_ascii s then Ok (map byte_of_ascii s) else Raise UnicodeError.

(** [str.encode()]: UTF-8, on the code points below 256 *)
Definition str_encode (s : str) : bytes :=
  flat_map (fun c =>
    let n := ord c in
    if n <? 128 then [Z_to_byte n]
    else [Z_to_byte (Z.lor 192 (Z.shiftr n 6)); Z_to_byte (Z.lor 128 (Z.land n 63))]) s.

(** [struct.pack('!B', z)], [struct.pack('!H', z)], [struct.pack('!I', z)] *)
Definition pack_B (z : Z) : result bytes :=
  if (0 <=? z) && (z <? 256) then Ok (to_bytes 1 z) else Raise StructError.
Definition pack_H (z : Z) : result bytes :=
  if (0 <=? z) && (z <? 65536) then Ok (to_bytes 2 z) else Raise StructError.
Definition pack_I (z : Z) : result bytes :=
  if (0 <=? z) && (z <? 4294967296) then Ok (to_bytes 4 z) else Raise StructError.

(** [struct.unpack('!H', s)[0]] *)
Definition unpack_H (s : bytes) : result Z :=
  match s with
  | [h; l] => Ok (byteZ h * 256 + byteZ l)
  | _ => Raise StructError
  end.

Definition len {A} (l : list A) : Z := Z.of_nat (length l).

(** ** DNS constants *)

Definition DNSType_A : Z := 1.
Definition DNSType_NS : Z := 2.
Definition DNSType_SOA : Z := 6.
Definition DNSType_TXT : Z := 16.
Definition DNSClass_IN : Z := 1.

(** ** Configuration and state of a listener *)

Record Config : Type := {
  domain : str;              (* configuration.get('domain', 'example.com') *)
  ns_records : list str;
  soa_email : str;
  ttl : Z;                   (* configuration.get('ttl', 300) *)
  chunk_size : Z;            (* configuration.get('chunk_size', 50) *)
  response_ip : str          (* configuration.get('response_ip', '127.0.0.1') *)
}.

Definition default_config : Config := {|
  domain := lit "example.com";
  ns_records := [lit "ns1.example.com"; lit "ns2.example.com"];
  soa_email := lit "admin.example.com";
  ttl := 300;
  chunk_size := 50;
  response_ip := lit "127.0.0.1"
|}.

Definition max_label_length : nat := 63.

(** One entry of [incoming_messages] *)
Record Buffer : Type := {
  chunks : gmap Z bytes;
  total_chunks : Z;
  timestamp : Z
}.

Record Listener : Type := {
  incoming_messages : gmap str Buffer;        (* message_id -> buffer *)
  outgoing_messages : gmap str (list str);    (* agent_id -> [messages] *)
  agent_sessions : gmap Z str                 (* transaction_id -> agent_id *)
}.

Definition new_listener : Listener := {|
  incoming_messages := ∅; outgoing_messages := ∅; agent_sessions := ∅
|}.

Definition question : Type := str * Z * Z.
Definition answer : Type := str * Z * Z * Z * bytes.

(** ** Values and services outside the listener *)

(** What [json.loads] returns.  A [JObj] lists the items of a [dict] in
    insertion order. *)
#[local] Set Warnings "-register-all".
Inductive json : Type :=
| JNull
| JBool (b : bool)
| JNum (text : str)
| JStr (s : str)
| JArr (items : list json)
| JObj (items : list (str * json)).

(** [d.get(k)] *)
Fixpoint dict_get (k : str) (d : list (str * json)) : option json :=
  match d with
  | [] => None
  | (k', v) :: d' => if str_eqb k' k then Some v else dict_get k d'
  end.

(** What is left of [d] after [d.pop(k)] *)
Definition dict_remove (k : str) (d : list (str * json)) : list (str * json) :=
  List.filter (fun kv => negb (str_eqb (fst kv) k)) d.

(** A row of the [tasks] table (core/models.py), as far as the listener
    reads it. *)
Record Task : Type := {
  task_id : str;
  task_command : str;
  task_parameters : option str
}.

(** core/schemas.py:
    [class TaskResult(BaseModel): task_id: str; status: str = "completed";
     result: Optional[str] = None; error: Optional[str] = None] *)
Record TaskResult : Type := {
  tr_task_id : str;
  tr_status : str;
  tr_result : option str;
  tr_error : option str
}.

(** What [agent_checkin] (api/agents.py) returns, as far as the listener
    reads it: [result.get('agent_id')], [len(result.get('tasks', []))] and
    [result.get('sleep_interval', 60)]. *)
Record CheckinResult : Type := {
  cr_agent_id : option str;
  cr_tasks : nat;
  cr_sleep : Z
}.

(** The Python runtime and the rest of the server, as the listener calls
    them.  [W] is the state of the database. *)
Record Externals (W : Type) : Type := {
  (* int(s) *)
  py_int : str -> result Z;
  (* b.decode() *)
  bytes_decode : bytes -> result str;
  (* json.loads(b) *)
  json_loads : bytes -> result json;
  (* pydantic's validation of a str field *)
  validate_str : json -> result str;
  (* AgentCheckIn built from agent_info, then await agent_checkin(checkin_data, db) *)
  agent_checkin : json -> Z -> W -> result CheckinResult * W;
  (* json.dumps({'agent_id': .., 'tasks': .., 'sleep': ..}).encode() *)
  dumps_checkin : CheckinResult -> bytes;
  (* the pending-task query, and for a task found: status = "sent",
     sent_at = now, db.commit() *)
  pull_task : str -> Z -> W -> result (option Task) * W;
  (* json.dumps({'id': .., 'command': .., 'parameters': ..}).encode() *)
  dumps_task : Task -> result bytes;
  (* the agent lookup and last_seen update of a beacon *)
  touch_last_seen : str -> Z -> W -> result unit * W;
  (* await submit_task_result(task_id, result_data, db) *)
  submit_task_result : json -> TaskResult -> Z -> W -> result unit * W
}.
Arguments py_int {W}. Arguments bytes_decode {W}. Arguments json_loads {W}.
Arguments validate_str {W}. Arguments agent_checkin {W}. Arguments dumps_checkin {W}.
Arguments pull_task {W}. Arguments dumps_task {W}. Arguments touch_last_seen {W}.
Arguments submit_task_result {W}.

(** The listener together with the database and a record of the calls made
    to [submit_task_result]. *)
Record Sys (W : Type) : Type := {
  listener : Listener;
  world : W;
  submitted : list (json * TaskResult)
}.
Arguments listener {W}. Arguments world {W}. Arguments submitted {W}.
Arguments Build_Sys {W}.

(** ** The monad of handlers: state that survives a raise *)

Definition M (W A : Type) : Type := Sys W -> result A * Sys W.

Definition ret {W A} (a : A) : M W A := fun s => (Ok a, s).
Definition raise {W A} (e : exn) : M W A := fun s => (Raise e, s).

Definition bind {W A B} (m : M W A) (k : A -> M W B) : M W B :=
  fun s => match m s with
           | (Ok a, s') => k a s'
           | (Raise e, s') => (Raise e, s')
           end.

Definition lift {W A} (r : result A) : M W A := fun s => (r, s).

(** [try: m except Exception: h] *)
Definition try_except {W A} (m : M W A) (h : exn -> M W A) : M W A :=
  fun s => match m s with
           | (Ok a, s') => (Ok a, s')
           | (Raise e, s') => h e s'
           end.

Definition get_listener {W} : M W Listener := fun s => (Ok (listener s), s).

Definition set_listener {W} (l : Listener) : M W unit :=
  fun s => (Ok tt, Build_Sys l (world s) (submitted s)).

(** A call into the database *)
Definition call {W A} (f : W -> result A * W) : M W A :=
  fun s => let '(r, w) := f (world s) in (r, Build_Sys (listener s) w (submitted s)).

Definition log_submit {W} (task : json) (r : TaskResult) : M W unit :=
  fun s => (Ok tt, Build_Sys (listener s) (world s) (submitted s ++ [(task, r)])).

Notation "'do' x <- c ; k" := (bind c (fun x => k))
  (at level 10, x pattern, c at level 200, k at level 200).
Notation "c ;; k" := (bind c (fun _ => k))
  (at level 100, k at level 200, right associativity).

(** ** The wire codec *)

(** The [while True] loop of [parse_dns_query] that reads one name.  Every
    turn moves [offset] forward, and a turn with [offset] past the end of
    [data] raises [IndexError]; with [S (length data)] turns of fuel the
    fuel cannot run out first. *)
Fixpoint parse_name (fuel : nat) (data : bytes) (offset : nat) (domain_parts : list str)
  : result (list str * nat) :=
  match fuel with
  | O => Raise IndexError
  | S fuel' =>
      match data !! offset with
      | None => Raise IndexError
      | Some b =>
          let length := byteZ b in
          let offset := S offset in
          if length =? 0 then Ok (domain_parts, offset)
          else if Z.land length 192 =? 192 then
            let? pointer := unpack_H (slice (offset - 1) (offset + 1) data) in
            Ok (domain_parts, S offset)
          else
            let? part := decode_ascii (slice offset (offset + Z.to_nat length) data) in
            parse_name fuel' data (offset + Z.to_nat length) (domain_parts ++ [part])
      end
  end.

(** The [for _ in range(qdcount)] loop *)
Fixpoint parse_questions (qdcount : nat) (data : bytes) (offset : nat)
  : result (list question) :=
  match qdcount with
  | O => Ok []
  | S n =>
      let? name := parse_name (S (length data)) data offset [] in
      let '(domain_parts, offset) := name in
      let domain := join "."%char domain_parts in
      let? qtype := unpack_H (slice offset (offset + 2) data) in
      let? qclass := unpack_H (slice (offset + 2) (offset + 4) data) in
      let? rest := parse_questions n data (offset + 4) in
      Ok ((domain, qtype, qclass) :: rest)
  end.

Definition parse_dns_query (data : bytes) : result (Z * list question) :=
  let? transaction_id := unpack_H (slice 0 2 data) in
  let? flags := unpack_H (slice 2 4 data) in
  let? qdcount := unpack_H (slice 4 6 data) in
  let? questions := parse_questions (Z.to_nat qdcount) data 12 in
  Ok (transaction_id, questions).

(** The labels of a name on the wire, as [encode_domain] and the question
    loops of the response builders write them (without the final zero) *)
Fixpoint encode_labels (parts : list str) : result bytes :=
  match parts with
  | [] => Ok []
  | part :: rest =>
      match part with
      | [] => encode_labels rest
      | _ =>
          let? n := pack_B (len part) in
          let? p := encode_ascii part in
          let? r := encode_labels rest in
          Ok (n ++ p ++ r)
      end
  end.

Definition encode_domain (domain : str) : result bytes :=
  let? encoded := encode_labels (split_on "."%char domain) in
  Ok (encoded ++ [x00]).

Definition encode_question (q : question) : result bytes :=
  let '(domain, qtype, qclass) := q in
  let? name := encode_domain domain in
  let? t := pack_H qtype in
  let? c := pack_H qclass in
  Ok (name ++ t ++ c).

Definition encode_answer (a : answer) : result bytes :=
  let '(domain, rtype, rclass, ttl, rdata) := a in
  let? t := pack_H rtype in
  let? c := pack_H rclass in
  let? l := pack_I ttl in
  let? n := pack_H (len rdata) in
  Ok ([xc0; x0c] ++ t ++ c ++ l ++ n ++ rdata).

Definition pack_header (transaction_id flags qd an : Z) : result bytes :=
  let? a := pack_H transaction_id in
  let? b := pack_H flags in
  let? c := pack_H qd in
  let? d := pack_H an in
  Ok (a ++ b ++ c ++ d ++ [x00; x00; x00; x00]).

Definition build_dns_response (transaction_id : Z) (questions : list question)
    (answers : list answer) : result bytes :=
  let flags := 33152 (* 0x8180 *) in
  let? header := pack_header transaction_id flags (len questions) (len answers) in
  let? question_data := mapR encode_question questions in
  let? answer_data := mapR encode_answer answers in
  Ok (header ++ concat question_data ++ concat answer_data).

Definition build_nxdomain_response (transaction_id : Z) (questions : list question)
  : result bytes :=
  let flags := 33155 (* 0x8183 *) in
  let? header := pack_header transaction_id flags (len questions) 0 in
  let? question_data := mapR encode_question questions in
  Ok (header ++ concat question_data).

Definition build_servfail_response (transaction_id_bytes : bytes) : result bytes :=
  let? transaction_id := unpack_H transaction_id_bytes in
  let flags := 33154 (* 0x8182 *) in
  pack_header transaction_id flags 0 0.

(** A chunk is at most 255 bytes long, so its length always packs. *)
Definition build_txt_response (data : bytes) : bytes :=
  flat_map (fun chunk => Z_to_byte (len chunk) :: chunk) (slices 255 data).

Definition build_error_response : bytes := build_txt_response (blit "ERROR").

(** ** The listener *)

Section DNSListener.

Context {W : Type}.
Variable ext : Externals W.
Variable cfg : Config.

(** The name of one chunk: [f"{message_id}.{i // chunk_size}.{total_chunks}.{encoded_chunk}"],
    cut into pieces of [max_label_length] characters when it is longer. *)
Definition chunk_domain (message_id : str) (total : Z) (k : nat) (chunk : bytes) : str :=
  let encoded_chunk := encode_data chunk in
  let chunk_domain :=
    message_id ++ lit "." ++ str_of_Z (Z.of_nat k) ++ lit "." ++
    str_of_Z total ++ lit "." ++ encoded_chunk in
  if (max_label_length <? length chunk_domain)%nat
  then join "."%char (slices max_label_length chunk_domain)
  else chunk_domain.

(** [(len(data) + chunk_size - 1) // chunk_size] divides by [chunk_size];
    [range(0, len(data), chunk_size)] is empty for a negative step. *)
Definition split_data (data : bytes) (message_id : str) : result (list str) :=
  let cs := chunk_size cfg in
  if cs =? 0 then Raise ZeroDivisionError else
  let total := (len data + cs - 1) / cs in
  if cs <? 0 then Ok [] else
  Ok (imap (chunk_domain message_id total) (slices (Z.to_nat cs) data)).

(** core/schemas.py [TaskResult]: [task_id] is a required field; the other
    three have defaults. *)
Definition TaskResult_init (kwargs : list (str * json)) : result TaskResult :=
  match dict_get (lit "task_id") kwargs with
  | None => Raise ValidationError
  | Some v =>
      let? tid := validate_str ext v in
      let? st := match dict_get (lit "status") kwargs with
                 | None => Ok (lit "completed")
                 | Some v => validate_str ext v
                 end in
      let optional (k : str) : result (option str) :=
        match dict_get k kwargs with
        | None | Some JNull => Ok None
        | Some v => let? s := validate_str ext v in Ok (Some s)
        end in
      let? r := optional (lit "result") in
      let? e := optional (lit "error") in
      Ok {| tr_task_id := tid; tr_status := st; tr_result := r; tr_error := e |}
  end.

(** [if x:] for an [agent_id] that is [None] or a string *)
Definition truthy (o : option str) : option str :=
  match o with
  | Some [] | None => None
  | Some s => Some s
  end.

Definition handle_checkin_query (parts : list str) (transaction_id now : Z) : M W bytes :=
  if (length parts <? 2)%nat then ret build_error_response else
  try_except
    (do agent_data <- lift (decode_data (join "."%char parts));
     do agent_info <- lift (json_loads ext agent_data);
     do result <- call (agent_checkin ext agent_info now);
     do l <- get_listener;
     match truthy (cr_agent_id result) with
     | Some agent_id =>
         set_listener {| incoming_messages := incoming_messages l;
                         outgoing_messages := outgoing_messages l;
                         agent_sessions := <[transaction_id := agent_id]> (agent_sessions l) |}
     | None => ret tt
     end ;;
     ret (build_txt_response (dumps_checkin ext result)))
    (fun _ => ret build_error_response).

(** [agent_id = self.agent_sessions.get(transaction_id)], and when that is
    empty [self.decode_data(parts[0]).decode()] *)
Definition resolve_agent (l : Listener) (part0 : str) (transaction_id : Z) : result str :=
  match truthy (agent_sessions l !! transaction_id) with
  | Some agent_id => Ok agent_id
  | None => let? raw := decode_data part0 in bytes_decode ext raw
  end.

Definition handle_task_query (parts : list str) (transaction_id now : Z) : M W bytes :=
  match parts with
  | [] => ret build_error_response
  | part0 :: _ =>
      do l <- get_listener;
      match resolve_agent l part0 transaction_id with
      | Raise _ => ret build_error_response
      | Ok agent_id =>
          do tasks <- call (pull_task ext agent_id now);
          match tasks with
          | Some task =>
              do task_data <- lift (dumps_task ext task);
              if 200 <? len task_data then
                let message_id := lit "t" ++ firstn 8 (task_id task) in
                do chunks <- lift (split_data task_data message_id);
                do l <- get_listener;
                set_listener {| incoming_messages := incoming_messages l;
                                outgoing_messages := <[agent_id := chunks]> (outgoing_messages l);
                                agent_sessions := agent_sessions l |} ;;
                ret (build_txt_response
                       (str_encode (lit "MULTI:" ++ message_id ++ lit ":" ++ str_of_Z (len chunks))))
              else ret (build_txt_response task_data)
          | None => ret (build_txt_response (blit "NOTASK"))
          end
      end
  end.

(** [for i in range(total_chunks): full_data += chunks[i]] *)
Definition reassemble (stored : gmap Z bytes) (total : Z) : result bytes :=
  let? parts := mapR (fun i => match stored !! Z.of_nat i with
                               | Some c => Ok c
                               | None => Raise KeyError
                               end) (seq 0 (Z.to_nat total)) in
  Ok (concat parts).

(** The statements of [handle_result_query] from [json.loads] to the
    [del]; [result.pop('task_id')] needs a [dict] that has the key. *)
Definition process_result (message_id : str) (full_data : bytes) (now : Z) : M W bytes :=
  do result <- lift (json_loads ext full_data);
  do popped <- lift (match result with
                     | JObj items =>
                         match dict_get (lit "task_id") items with
                         | Some v => Ok (v, dict_remove (lit "task_id") items)
                         | None => Raise KeyError
                         end
                     | _ => Raise TypeError
                     end);
  let '(task_id, result) := popped in
  do result_data <- lift (TaskResult_init result);
  log_submit task_id result_data ;;
  call (submit_task_result ext task_id result_data now) ;;
  do l <- get_listener;
  match incoming_messages l !! message_id with
  | None => raise KeyError
  | Some _ =>
      set_listener {| incoming_messages := delete message_id (incoming_messages l);
                      outgoing_messages := outgoing_messages l;
                      agent_sessions := agent_sessions l |}
  end ;;
  ret (build_txt_response (blit "ACK")).

Definition store_chunk (message_id : str) (chunk_num total : Z) (chunk_data : bytes)
    (now : Z) (l : Listener) : Listener :=
  let incoming :=
    match incoming_messages l !! message_id with
    | Some _ => incoming_messages l
    | None => <[message_id := {| chunks := ∅; total_chunks := total; timestamp := now |}]>
                (incoming_messages l)
    end in
  let incoming :=
    match incoming !! message_id with
    | Some b => <[message_id := {| chunks := <[chunk_num := chunk_data]> (chunks b);
                                   total_chunks := total_chunks b;
                                   timestamp := timestamp b |}]> incoming
    | None => incoming
    end in
  {| incoming_messages := incoming;
     outgoing_messages := outgoing_messages l;
     agent_sessions := agent_sessions l |}.

Definition handle_result_query (parts : list str) (transaction_id now : Z) : M W bytes :=
  match parts with
  | message_id :: part1 :: part2 :: rest =>
      try_except
        (do chunk_num <- lift (py_int ext part1);
         do total <- lift (py_int ext part2);
         do chunk_data <- lift (match rest with
                                | [] => Ok []
                                | _ => decode_data (join "."%char rest)
                                end);
         do l <- get_listener;
         set_listener (store_chunk message_id chunk_num total chunk_data now l) ;;
         do l <- get_listener;
         match incoming_messages l !! message_id with
         | None => raise KeyError
         | Some b =>
             if Z.of_nat (size (chunks b)) =? total then
               do full_data <- lift (reassemble (chunks b) total);
               try_except (process_result message_id full_data now)
                          (fun _ => ret build_error_response)
             else
               ret (build_txt_response (str_encode (lit "CHUNK:" ++ str_of_Z chunk_num)))
         end)
        (fun _ => ret build_error_response)
  | _ => ret build_error_response
  end.

Definition handle_beacon_query (parts : list str) (transaction_id now : Z) : M W bytes :=
  do l <- get_listener;
  match truthy (agent_sessions l !! transaction_id) with
  | Some agent_id => call (touch_last_seen ext agent_id now)
  | None => ret tt
  end ;;
  ret (build_txt_response (blit "PONG")).

Definition handle_data_query (parts : list str) (transaction_id : Z) : M W (option bytes) :=
  ret None.

Definition some {A} (m : M W A) : M W (option A) := do a <- m; ret (Some a).

Definition handle_agent_query (qname : str) (qtype transaction_id now : Z)
  : M W (option bytes) :=
  let suffix := lit "." ++ domain cfg in
  if negb (endswith qname suffix) then ret None else
  let subdomain := firstn (length qname - (length suffix + 1)) qname in
  match subdomain with
  | [] => ret None
  | _ =>
      let parts := split_on "."%char subdomain in
      match parts with
      | [] => raise IndexError
      | part0 :: rest =>
          if str_eqb part0 (lit "checkin") then some (handle_checkin_query rest transaction_id now)
          else if str_eqb part0 (lit "task") then some (handle_task_query rest transaction_id now)
          else if str_eqb part0 (lit "result") then some (handle_result_query rest transaction_id now)
          else if str_eqb part0 (lit "beacon") then some (handle_beacon_query rest transaction_id now)
          else handle_data_query parts transaction_id
      end
  end.

(** [struct.pack('!BBBB', *map(int, ip.split('.')))] *)
Definition ip_bytes : result bytes :=
  let? nums := mapR (py_int ext) (split_on "."%char (response_ip cfg)) in
  match nums with
  | [a; b; c; d] =>
      let? a := pack_B a in
      let? b := pack_B b in
      let? c := pack_B c in
      let? d := pack_B d in
      Ok (a ++ b ++ c ++ d)
  | _ => Raise StructError
  end.

(** [serial = int(datetime.utcnow().timestamp())]: whole seconds *)
Definition build_soa_record (now : Z) : result bytes :=
  match ns_records cfg with
  | [] => Raise IndexError
  | ns0 :: _ =>
      let? mname := encode_domain ns0 in
      let? rname := encode_domain (replace_char "@"%char "."%char (soa_email cfg)) in
      let? serial := pack_I (Z.quot now 1000000) in
      let? refresh := pack_I 7200 in
      let? retry := pack_I 3600 in
      let? expire := pack_I 1209600 in
      let? minimum := pack_I 3600 in
      Ok (mname ++ rname ++ serial ++ refresh ++ retry ++ expire ++ minimum)
  end.

(** The body of the [for domain, qtype, qclass in questions] loop *)
Definition answer_question (q : question) (transaction_id now : Z) (answers : list answer)
  : M W (list answer) :=
  let '(qname, qtype, qclass) := q in
  if negb (qclass =? DNSClass_IN) then ret answers
  else if qtype =? DNSType_A then
    do ip <- lift ip_bytes;
    ret (answers ++ [(qname, DNSType_A, DNSClass_IN, ttl cfg, ip)])
  else if qtype =? DNSType_TXT then
    do response_data <- handle_agent_query qname qtype transaction_id now;
    match response_data with
    | Some (b :: data) =>
        ret (answers ++ [(qname, DNSType_TXT, DNSClass_IN, ttl cfg, b :: data)])
    | _ => ret answers
    end
  else if qtype =? DNSType_NS then
    do ns_data <- lift (mapR encode_domain (ns_records cfg));
    ret (answers ++ map (fun d => (qname, DNSType_NS, DNSClass_IN, ttl cfg, d)) ns_data)
  else if qtype =? DNSType_SOA then
    do soa_data <- lift (build_soa_record now);
    ret (answers ++ [(qname, DNSType_SOA, DNSClass_IN, ttl cfg, soa_data)])
  else ret answers.

Fixpoint answer_questions (questions : list question) (transaction_id now : Z)
    (answers : list answer) : M W (list answer) :=
  match questions with
  | [] => ret answers
  | q :: rest =>
      do answers <- answer_question q transaction_id now answers;
      answer_questions rest transaction_id now answers
  end.

Definition process_query (data : bytes) (now : Z) : M W bytes :=
  try_except
    (do query <- lift (parse_dns_query data);
     let '(transaction_id, questions) := query in
     do answers <- answer_questions questions transaction_id now [];
     match answers with
     | _ :: _ => lift (build_dns_response transaction_id questions answers)
     | [] => lift (build_nxdomain_response transaction_id questions)
     end)
    (fun _ => lift (build_servfail_response (firstn 2 data))).

(** [DNSProtocol._handle_query], with the transport connected: what is
    sent back, if anything. *)
Definition handle_datagram (data : bytes) (now : Z) : M W (option bytes) :=
  try_except
    (do response <- process_query data now;
     match response with
     | _ :: _ => ret (Some response)
     | [] => ret None
     end)
    (fun _ => ret None).

(** ** The reassembly sweep *)

(** [(now - msg_data['timestamp']).total_seconds() > 600] *)
Definition is_expired (now : Z) (b : Buffer) : bool :=
  600 * 1000000 <? now - timestamp b.

(** One turn of the loop of [cleanup_task], after its sleep *)
Definition cleanup_sweep (now : Z) (l : Listener) : Listener :=
  let expired :=
    map fst (List.filter (fun kv => is_expired now (snd kv)) (map_to_list (incoming_messages l))) in
  {| incoming_messages := foldr delete (incoming_messages l) expired;
     outgoing_messages := outgoing_messages l;
     agent_sessions := agent_sessions l |}.

(** Seconds slept before each sweep *)
Definition cleanup_interval : Z := 300.

(** The sweeps of [cleanup_task] at the given clock readings *)
Definition cleanup_task (wakeups : list Z) (l : Listener) : Listener :=
  fold_left (fun l now => cleanup_sweep now l) wakeups l.

End DNSListener.

(** ** A small concrete environment, for running the model

    [int] on plain digit strings, [bytes.decode] on ASCII, a JSON parser
    given as a table, and a database that is the list of pending tasks by
    agent. *)

Fixpoint digits_value_of (s : str) (acc : Z) : option Z :=
  match s with
  | [] => Some acc
  | c :: s' =>
      let n := ord c in
      if (48 <=? n) && (n <=? 57) then digits_value_of s' (acc * 10 + (n - 48)) else None
  end.

Definition sim_int (s : str) : result Z :=
  match s with
  | [] => Raise ValueError
  | _ => match digits_value_of s 0 with
         | Some z => Ok z
         | None => Raise ValueError
         end
  end.

Definition bytes_eqb (a b : bytes) : bool :=
  str_eqb (map ascii_of_byte a) (map ascii_of_byte b).

Fixpoint table_lookup (t : list (bytes * json)) (b : bytes) : result json :=
  match t with
  | [] => Raise ValueError
  | (k, v) :: t' => if bytes_eqb k b then Ok v else table_lookup t' b
  end.

Definition quote : str := [ascii_of_nat 34].

(** The text [json.dumps] gives for a task whose strings need no escape *)
Definition task_text (t : Task) : bytes :=
  str_encode
    (lit "{" ++ quote ++ lit "id" ++ quote ++ lit ": " ++ quote ++ task_id t ++ quote ++
     lit ", " ++ quote ++ lit "command" ++ quote ++ lit ": " ++ quote ++ task_command t ++ quote ++
     lit ", " ++ quote ++ lit "parameters" ++ quote ++ lit ": " ++
     match task_parameters t with Some p => p | None => lit "{}" end ++ lit "}").

Definition sim_dumps_task (t : Task) : result bytes := Ok (task_text t).

Definition SimDB : Type := list (str * Task).

Fixpoint sim_pull (agent_id : str) (db : SimDB) : option Task * SimDB :=
  match db with
  | [] => (None, [])
  | (a, t) :: db' =>
      if str_eqb a agent_id then (Some t, db')
      else let '(r, db'') := sim_pull agent_id db' in (r, (a, t) :: db'')
  end.

Definition sim_externals (json_table : list (bytes * json)) : Externals SimDB := {|
  py_int := sim_int;
  bytes_decode := decode_ascii;
  json_loads := table_lookup json_table;
  validate_str := fun v => match v with JStr s => Ok s | _ => Raise ValidationError end;
  agent_checkin := fun _ _ db => (Raise (ExternalError 404), db);
  dumps_checkin := fun _ => [];
  pull_task := fun a _ db => let '(r, db') := sim_pull a db in (Ok r, db');
  dumps_task := sim_dumps_task;
  touch_last_seen := fun _ _ db => (Ok tt, db);
  submit_task_result := fun _ _ _ db => (Ok tt, db)
|}.

Definition start (db : SimDB) : Sys SimDB :=
  {| listener := new_listener; world := db; submitted := [] |}.

(** A query datagram with one question *)
Definition query_bytes (transaction_id : Z) (labels : list str) (qtype qclass : Z) : bytes :=
  to_bytes 2 transaction_id ++ [x01; x00; x00; x01; x00; x00; x00; x00; x00; x00] ++
  flat_map (fun l => Z_to_byte (len l) :: map byte_of_ascii l) labels ++ [x00] ++
  to_bytes 2 qtype ++ to_bytes 2 qclass.

Definition c2_test : Config := {|
  domain := lit "c2.test";
  ns_records := [lit "ns1.c2.test"];
  soa_email := lit "admin@c2.test";
  ttl := 300;
  chunk_size := 50;
  response_ip := lit "127.0.0.1"
|}.

(** ** Notions used in the statements below *)

(** The acknowledgement of a chunk that was stored *)
Definition chunk_ack (l : Listener) (message_id : str) (chunk_num total : Z) : bytes :=
  match incoming_messages l !! message_id with
  | Some b =>
      if Z.of_nat (size (chunks b)) =? total then build_error_response
      else build_txt_response (str_encode (lit "CHUNK:" ++ str_of_Z chunk_num))
  | None => build_error_response
  end.

Definition with_listener {W} (s : Sys W) (l : Listener) : Sys W :=
  {| listener := l; world := world s; submitted := submitted s |}.


(** The fields [handle_result_query] reads from the labels of a query:
    [message_id], [int(parts[1])], [int(parts[2])] and the decoded payload;
    [None] when there are too few labels or one of them does not convert. *)
Definition parse_chunk {W} (ext : Externals W) (parts : list str)
  : option (str * Z * Z * bytes) :=
  match parts with
  | message_id :: part1 :: part2 :: rest =>
      match py_int ext part1, py_int ext part2,
            match rest with [] => Ok [] | _ => decode_data (join "."%char rest) end with
      | Ok chunk_num, Ok total, Ok chunk_data => Some (message_id, chunk_num, total, chunk_data)
      | _, _, _ => None
      end
  | _ => None
  end.

(** ** Concrete scenarios *)

(** A pending task for agent [a1] whose command is [n] letters long; its
    serialisation is [59 + n] bytes. *)
Definition task_of_size (n : nat) : Task :=
  {| task_id := lit "0123456789abcdef"; task_command := repeat "x"%char n;
     task_parameters := None |}.

Definition db_with_task (n : nat) : SimDB := [(lit "a1", task_of_size n)].

(** The label [encode_data(b"a1")] *)
Definition a1_label : str := lit "meyq".

(** One poll [task.<a1>] handled, keeping the state *)
Definition poll (s : Sys SimDB) : Sys SimDB :=
  snd (handle_task_query (sim_externals []) c2_test [a1_label] 1 0 s).

Definition result_table : list (bytes * json) :=
  [(blit "foobar", JObj [(lit "task_id", JStr (lit "t1")); (lit "status", JStr (lit "completed"))])].

(** The result query [result.m1.0.<total>.<encode_data(b"foobar")>] *)
Definition foobar_chunk (total : str) : list str :=
  [lit "m1"; lit "0"; total; lit "mzxw6ytboi"].

Definition foobar_buffer (total now : Z) : Buffer :=
  {| chunks := {[0 := blit "foobar"]}; total_chunks := total; timestamp := now |}.

(** A label as [parse_dns_query] reads it: ASCII, fewer than 192 characters *)
Definition label_ok (p : str) : Prop :=
  forallb is_ascii p = true /\ (length p < 192)%nat.

(** A question as [parse_dns_query] returns it *)
Definition question_ok (q : question) : Prop :=
  let '(name, qtype, qclass) := q in
  (exists parts, name = join "."%char parts /\ Forall label_ok parts) /\
  0 <= qtype < 65536 /\ 0 <= qclass < 65536.

(** The twelve bytes of a SERVFAIL response to a datagram that starts with
    the bytes [a] and [b] *)
Definition servfail_bytes (a b : byte) : bytes :=
  [a; b; x81; x82; x00; x00; x00; x00; x00; x00; x00; x00].

(** [r], or the SERVFAIL response when [r] is a raise: the [except] clause
    of [process_query] *)
Definition or_servfail (data : bytes) (r : result bytes) : result bytes :=
  match r with
  | Ok response => Ok response
  | Raise _ => build_servfail_response (firstn 2 data)
  end.

(** A label that survives the trip through the wire: not empty, shorter
    than 192 characters, ASCII, and without a dot of its own *)
Definition wire_label (p : str) : Prop :=
  p <> [] /\ (length p < 192)%nat /\ forallb is_ascii p = true /\ ~ In "."%char p.

(** The bytes of one label on the wire *)
Definition label_bytes (p : str) : bytes := Z_to_byte (len p) :: map byte_of_ascii p.

(** [s'] has the sessions and the submission record of [s], and every
    reassembly buffer and every outgoing queue of [s] is still there. *)
Definition keeps {W} (s s' : Sys W) : Prop :=
  agent_sessions (listener s') = agent_sessions (listener s) /\
  submitted s' = submitted s /\
  dom (incoming_messages (listener s)) ⊆ dom (incoming_messages (listener s')) /\
  dom (outgoing_messages (listener s)) ⊆ dom (outgoing_messages (listener s')).

(** The listener after a run of datagrams, each with the clock reading at
    its arrival *)
Definition serve {W} (ext : Externals W) (cfg : Config) (traffic : list (bytes * Z))
    (s : Sys W) : Sys W :=
  fold_left (fun s d => snd (handle_datagram ext cfg (fst d) (snd d) s)) traffic s.

Definition fresh {W} (w : W) : Sys W :=
  {| listener := new_listener; world := w; submitted := [] |}.

(** The four first labels [handle_agent_query] dispatches on *)
Definition keywords : list str := [lit "checkin"; lit "task"; lit "result"; lit "beacon"].

(** The bytes of one question on the wire *)
Definition question_bytes (labels : list str) (qtype qclass : Z) : bytes :=
  flat_map label_bytes labels ++ [x00] ++ to_bytes 2 qtype ++ to_bytes 2 qclass.

(** A query datagram with the questions [www.example.org A IN] and
    [c2.test SOA IN] *)
Definition a_soa_query : bytes :=
  to_bytes 2 4660 ++ [x01; x00; x00; x02; x00; x00; x00; x00; x00; x00] ++
  question_bytes [lit "www"; lit "example"; lit "org"] DNSType_A DNSClass_IN ++
  question_bytes [lit "c2"; lit "test"] DNSType_SOA DNSClass_IN.

(** [c2_test] without name servers *)
Definition c2_no_ns : Config := {|
  domain := lit "c2.test";
  ns_records := [];
  soa_email := lit "admin@c2.test";
  ttl := 300;
  chunk_size := 50;
  response_ip := lit "127.0.0.1"
|}.

Definition DNSType_AAAA : Z := 28.
Example encode_data_ex : encode_data (blit "foobar") = lit "mzxw6ytboi".
Proof. vm_compute. reflexivity. Qed.

Example decode_data_ex : decode_data (lit "MZXW6YTBOI") = Ok (blit "foobar").
Proof. vm_compute. reflexivity. Qed.

(** ** Bytes and slices *)

Lemma byteZ_range (b : byte) : 0 <= byteZ b < 256.
Proof. destruct b; vm_compute; split; congruence. Qed.

Lemma Z_to_byte_byteZ (b : byte) : Z_to_byte (byteZ b) = b.
Proof. destruct b; reflexivity. Qed.

Lemma slices_fuel_enough {A} (n : nat) (l : list A) (f1 f2 : nat) :
  (0 < n)%nat -> (length l <= f1)%nat -> (length l <= f2)%nat ->
  slices_fuel f1 n l = slices_fuel f2 n l.
Proof.
  intros Hn. revert l f2.
  induction f1 as [|f1 IH]; intros l f2 H1 H2.
  - destruct l; simpl in H1; [|lia]. destruct f2; reflexivity.
  - destruct f2 as [|f2].
    + destruct l; simpl in H2; [reflexivity|lia].
    + simpl. destruct l as [|a l]; [reflexivity|].
      f_equal. apply IH; rewrite length_skipn; simpl in *; lia.
Qed.

Lemma slices_nil {A} (n : nat) : slices n (@nil A) = [].
Proof. reflexivity. Qed.

Lemma slices_app {A} (n : nat) (g l : list A) :
  (0 < n)%nat -> length g = n ->
  slices n (g ++ l) = g :: slices n l.
Proof.
  intros Hn Hg. unfold slices.
  destruct g as [|a g]; [simpl in Hg; lia|].
  rewrite length_app. replace (length (a :: g) + length l)%nat
    with (S (length g + length l)) by (simpl; lia).
  cbn [slices_fuel app].
  change (a :: g ++ l) with ((a :: g) ++ l).
  rewrite firstn_app, skipn_app, Hg, Nat.sub_diag.
  rewrite firstn_all2 by lia. rewrite skipn_all2 by lia.
  simpl. rewrite app_nil_r. f_equal.
  apply slices_fuel_enough; lia.
Qed.

Lemma slices_short {A} (n : nat) (l : list A) :
  l <> [] -> (length l <= n)%nat -> slices n l = [l].
Proof.
  intros Hl Hn. unfold slices. destruct l as [|a l]; [congruence|].
  cbn [length slices_fuel]. rewrite firstn_all2 by (simpl in *; lia).
  rewrite skipn_all2 by (simpl in *; lia).
  destruct (length l); reflexivity.
Qed.

Lemma concat_slices {A} (n : nat) (l : list A) :
  (0 < n)%nat -> concat (slices n l) = l.
Proof.
  intros Hn. unfold slices.
  remember (length l) as f eqn:Hf.
  assert (Hle : (length l <= f)%nat) by lia. clear Hf.
  revert l Hle. induction f as [|f IH]; intros l Hle.
  - destruct l; simpl in *; [reflexivity|lia].
  - destruct l as [|a l]; [reflexivity|].
    cbn [slices_fuel concat]. rewrite IH.
    + apply firstn_skipn.
    + rewrite length_skipn. simpl in *. lia.
Qed.

(** Every list is a run of full [n]-groups followed by a short tail. *)
Lemma split_groups {A} (n : nat) (l : list A) :
  (0 < n)%nat ->
  exists gs t, l = concat gs ++ t /\ Forall (fun g => length g = n) gs /\
               (length t < n)%nat.
Proof.
  intros Hn.
  remember (length l) as k eqn:Hk. revert l Hk.
  induction k as [k IH] using lt_wf_ind. intros l Hk.
  destruct (Nat.lt_ge_cases (length l) n) as [Hlt|Hge].
  - exists [], l. repeat split; [constructor|exact Hlt].
  - destruct (IH (length (skipn n l))) with (l := skipn n l) as (gs & t & E & F & T).
    + rewrite length_skipn. lia.
    + reflexivity.
    + exists (firstn n l :: gs), t. repeat split.
      * cbn [concat]. rewrite <- app_assoc, <- E. symmetry. apply firstn_skipn.
      * constructor; [|exact F]. rewrite length_firstn. lia.
      * exact T.
Qed.

(** ** base-32 *)

Lemma b32rev_tab (d : Z) : 0 <= d < 32 -> b32rev (b32tab d) = Some d.
Proof.
  intros H.
  assert (E : d = Z.of_nat (Z.to_nat d)) by lia. rewrite E at 2. 
  assert (Hn : (Z.to_nat d < 32)%nat) by lia.
  unfold b32tab. generalize dependent (Z.to_nat d). intros n _ Hn.
  do 32 (destruct n as [|n]; [reflexivity|]). lia.
Qed.

Lemma from_bytes5 a b c d e :
  from_bytes [a; b; c; d; e] =
  byteZ a * 2^32 + byteZ b * 2^24 + byteZ c * 2^16 + byteZ d * 2^8 + byteZ e.
Proof. unfold from_bytes. simpl. lia. Qed.

Lemma shiftr_land_digit c k : 0 <= k -> Z.land (Z.shiftr c k) 31 = (c / 2^k) mod 32.
Proof. intros. rewrite Z.shiftr_div_pow2 by lia. change 31 with (Z.ones 5). rewrite Z.land_ones by lia. reflexivity. Qed.

Lemma b32_quantum_digits c g :
  from_bytes g = c -> 0 <= c < 2^40 ->
  b32_quantum g = map (fun i => b32tab (digit c i)) [0;1;2;3;4;5;6;7].
Proof.
  intros Hc Hr. unfold b32_quantum, b32tab2. rewrite Hc. cbn [map app].
  change 1023 with (Z.ones 10). change 31 with (Z.ones 5).
  rewrite !Z.land_ones by lia. rewrite !Z.shiftr_div_pow2 by lia.
  unfold digit. cbn [Z.mul Z.sub Z.add Z.opp Z.pos_sub Pos.mul Pos.add Pos.succ Pos.pred_double].
  repeat (apply (f_equal2 cons); [apply (f_equal b32tab)|]); try reflexivity.
  all: change (2^5) with 32; change (2^10) with 1024; change (2^30) with 1073741824;
    change (2^20) with 1048576; change (2^35) with 34359738368;
    change (2^25) with 33554432; change (2^15) with 32768; change (2^0) with 1;
    change (2^40) with 1099511627776 in Hr.
  all: Z.div_mod_to_equations; lia.
Qed.

Lemma b32_acc_digits c (ds : list Z) acc :
  Forall (fun i => 0 <= i < 8) ds ->
  b32_acc acc (map (fun i => b32tab (digit c i)) ds) =
  Ok (fold_left (fun a i => a * 32 + digit c i) ds acc).
Proof.
  revert acc. induction ds as [|i ds IH]; intros acc H; [reflexivity|].
  inversion H; subst. cbn [map b32_acc fold_left].
  rewrite b32rev_tab by (unfold digit; apply Z.mod_pos_bound; lia).
  rewrite Z.shiftl_mul_pow2 by lia. change (2^5) with 32. apply IH. assumption.
Qed.

Lemma digits_value c : 0 <= c < 2^40 ->
  fold_left (fun a i => a * 32 + digit c i) [0;1;2;3;4;5;6;7] 0 = c.
Proof.
  intros H. unfold digit. cbn [fold_left].
  cbn [Z.mul Z.sub Z.add Z.opp Z.pos_sub Pos.mul Pos.add Pos.succ Pos.pred_double].
  change (2^35) with 34359738368; change (2^30) with 1073741824;
    change (2^25) with 33554432; change (2^20) with 1048576; change (2^15) with 32768;
    change (2^10) with 1024; change (2^5) with 32; change (2^0) with 1;
    change (2^40) with 1099511627776 in H.
  Z.div_mod_to_equations. lia.
Qed.

Lemma Z_to_byte_mod z b : z mod 256 = byteZ b -> Z_to_byte z = b.
Proof.
  intros H. rewrite <- (Z_to_byte_byteZ b). unfold Z_to_byte. rewrite H.
  rewrite (Z.mod_small (byteZ b)) by apply byteZ_range. reflexivity.
Qed.

Ltac pow2_consts :=
  change (2^40) with 1099511627776 in *; change (2^35) with 34359738368 in *;
  change (2^32) with 4294967296 in *; change (2^30) with 1073741824 in *;
  change (2^25) with 33554432 in *; change (2^24) with 16777216 in *;
  change (2^20) with 1048576 in *; change (2^16) with 65536 in *;
  change (2^15) with 32768 in *; change (2^10) with 1024 in *;
  change (2^8) with 256 in *; change (2^5) with 32 in *; change (2^0) with 1 in *.

Lemma to_bytes5_from_bytes g : length g = 5%nat -> to_bytes 5 (from_bytes g) = g.
Proof.
  intros H. do 5 (destruct g as [|? g]; [discriminate|]). destruct g; [|discriminate].
  rewrite from_bytes5. cbn [to_bytes].
  pose proof (byteZ_range b). pose proof (byteZ_range b0). pose proof (byteZ_range b1).
  pose proof (byteZ_range b2). pose proof (byteZ_range b3).
  rewrite !Z.shiftr_div_pow2 by lia.
  repeat (apply (f_equal2 cons)); try reflexivity.
  all: apply Z_to_byte_mod.
  all: cbn [Z.mul Z.of_nat Pos.of_succ_nat Pos.succ Pos.mul].
  all: pow2_consts.
  all: Z.div_mod_to_equations; lia.
Qed.

Lemma from_bytes_range5 g : length g = 5%nat -> 0 <= from_bytes g < 2^40.
Proof.
  intros H. do 5 (destruct g as [|? g]; [discriminate|]). destruct g; [|discriminate].
  rewrite from_bytes5.
  pose proof (byteZ_range b). pose proof (byteZ_range b0). pose proof (byteZ_range b1).
  pose proof (byteZ_range b2). pose proof (byteZ_range b3).
  pow2_consts. lia.
Qed.

Lemma b32tab_in (i : Z) : In (b32tab i) b32alphabet.
Proof.
  unfold b32tab. destruct (Nat.lt_ge_cases (Z.to_nat i) (length b32alphabet)) as [H|H].
  - apply nth_In. exact H.
  - rewrite nth_overflow by exact H. left. reflexivity.
Qed.

Lemma b32tab_forall (P : ascii -> bool) :
  forallb P b32alphabet = true -> forall i, P (b32tab i) = true.
Proof.
  intros H i. rewrite forallb_forall in H. apply H, b32tab_in.
Qed.

Lemma b32_text_forall (P : ascii -> bool) (s : str) :
  forallb P b32alphabet = true -> b32_text s -> forallb P s = true.
Proof.
  intros H Hs. rewrite forallb_forall in H. apply forallb_forall.
  intros c Hc. apply H. unfold b32_text in Hs. rewrite Forall_forall in Hs.
  apply Hs. apply list_elem_of_In. exact Hc.
Qed.

Lemma b32_quantum_text g : b32_text (b32_quantum g).
Proof.
  unfold b32_quantum, b32tab2, b32_text. cbn [app].
  repeat (apply Forall_cons_2; [apply b32tab_in|]). apply Forall_nil_2.
Qed.

Lemma b32_quantum_length g : length (b32_quantum g) = 8%nat.
Proof. reflexivity. Qed.

Lemma lstrip_keep c x s : Ascii.eqb x c = false -> lstrip c (x :: s) = x :: s.
Proof. intros H. simpl. rewrite H. reflexivity. Qed.

Lemma rstrip_repeat c s k : rstrip c (s ++ repeat c k) = rstrip c s.
Proof.
  unfold rstrip. rewrite rev_app_distr. f_equal.
  induction k as [|k IH]; [reflexivity|].
  replace (repeat c (S k)) with (repeat c k ++ [c]).
  - rewrite rev_app_distr. cbn [rev app lstrip]. rewrite Ascii.eqb_refl. exact IH.
  - change [c] with (repeat c 1). rewrite <- repeat_app. f_equal. lia.
Qed.

Lemma rstrip_clean c s : forallb (fun x => negb (Ascii.eqb x c)) s = true -> rstrip c s = s.
Proof.
  intros H. unfold rstrip. destruct (rev s) as [|x r] eqn:E.
  - apply (f_equal (@rev ascii)) in E. rewrite rev_involutive in E. subst. reflexivity.
  - assert (Hx : In x s) by (apply in_rev; rewrite E; left; reflexivity).
    rewrite forallb_forall in H. specialize (H x Hx).
    rewrite lstrip_keep by (destruct (Ascii.eqb x c); [discriminate|reflexivity]).
    rewrite <- E. apply rev_involutive.
Qed.

Lemma concat_groups_length {A} (n : nat) (gs : list (list A)) :
  Forall (fun g => length g = n) gs -> length (concat gs) = (n * length gs)%nat.
Proof.
  induction 1 as [|g gs Hg _ IH]; [simpl; lia|].
  cbn [concat length]. rewrite length_app, IH, Hg. lia.
Qed.

Lemma slices_groups {A} (n : nat) (gs : list (list A)) (t : list A) :
  (0 < n)%nat -> Forall (fun g => length g = n) gs ->
  slices n (concat gs ++ t) = gs ++ slices n t.
Proof.
  intros Hn. induction 1 as [|g gs Hg _ IH]; [reflexivity|].
  cbn [concat]. rewrite <- app_assoc, slices_app by assumption.
  rewrite IH. reflexivity.
Qed.

Lemma mapR_app {A B} (f : A -> result B) (l1 l2 : list A) :
  mapR f (l1 ++ l2) =
  let? x := mapR f l1 in let? y := mapR f l2 in Ok (x ++ y).
Proof.
  induction l1 as [|a l1 IH]; cbn [mapR app rbind].
  - destruct (mapR f l2); reflexivity.
  - destruct (f a); [|reflexivity]. cbn [rbind]. rewrite IH.
    destruct (mapR f l1); [|reflexivity]. cbn [rbind].
    destruct (mapR f l2); reflexivity.
Qed.

Lemma b32_acc_quantum g :
  length g = 5%nat -> b32_acc 0 (b32_quantum g) = Ok (from_bytes g).
Proof.
  intros H. pose proof (from_bytes_range5 g H) as R.
  rewrite (b32_quantum_digits (from_bytes g) g eq_refl R).
  rewrite b32_acc_digits by (repeat (apply Forall_cons_2; [lia|]); apply Forall_nil_2).
  f_equal. apply digits_value. exact R.
Qed.

Lemma mapR_quanta gs :
  Forall (fun g => length g = 5%nat) gs ->
  mapR (b32_acc 0) (map b32_quantum gs) = Ok (map from_bytes gs).
Proof.
  induction 1 as [|g gs Hg _ IH]; [reflexivity|].
  cbn [map mapR]. rewrite b32_acc_quantum by exact Hg. cbn [rbind].
  rewrite IH. reflexivity.
Qed.

Lemma concat_to_bytes gs :
  Forall (fun g => length g = 5%nat) gs ->
  concat (map (to_bytes 5) (map from_bytes gs)) = concat gs.
Proof.
  induction 1 as [|g gs Hg _ IH]; [reflexivity|].
  cbn [map concat]. rewrite to_bytes5_from_bytes by exact Hg. rewrite IH. reflexivity.
Qed.

Lemma concat_quanta_length gs :
  length (concat (map b32_quantum gs)) = (8 * length gs)%nat.
Proof. induction gs as [|g gs IH]; [reflexivity|]. cbn [map concat]. rewrite length_app, IH, b32_quantum_length. cbn [length]. lia. Qed.

Lemma pad_tail_app (k : nat) (a e : str) :
  (k <= length e)%nat -> pad_tail k (a ++ e) = a ++ pad_tail k e.
Proof.
  intros H. unfold pad_tail. rewrite length_app, firstn_app.
  rewrite firstn_all2 by lia.
  replace (length a + length e - k - length a)%nat with (length e - k)%nat by lia.
  rewrite <- app_assoc. reflexivity.
Qed.

Lemma b32encode_struct gs t :
  Forall (fun g => length g = 5%nat) gs -> (length t < 5)%nat ->
  b32encode (concat gs ++ t) =
  concat (map b32_quantum gs) ++ tail_text t ++ repeat "="%char (tail_pad t).
Proof.
  intros Hgs Ht. unfold b32encode.
  rewrite length_app, (concat_groups_length 5 gs Hgs).
  replace ((5 * length gs + length t) mod 5)%nat with (length t).
  2:{ replace (5 * length gs + length t)%nat with (length t + length gs * 5)%nat by lia.
      rewrite Nat.Div0.mod_add, Nat.mod_small; lia. }
  assert (Hq : forall z : bytes, length z = 5%nat ->
     concat (map b32_quantum (slices 5 ((concat gs ++ t) ++ repeat x00 (5 - length t)))) =
     concat (map b32_quantum gs) ++ b32_quantum (t ++ repeat x00 (5 - length t))).
  { intros _ _. rewrite <- app_assoc, slices_groups by (assumption || lia).
    rewrite slices_short.
    - rewrite map_app, concat_app. cbn [map concat]. rewrite app_nil_r. reflexivity.
    - destruct t; [simpl; discriminate|discriminate].
    - rewrite length_app, repeat_length. lia. }
  specialize (Hq (repeat x00 5) eq_refl).
  assert (R : 0 <= tail_value t < 2^40).
  { apply from_bytes_range5. rewrite length_app, repeat_length. lia. }
  pose proof (b32_quantum_digits (tail_value t) _ eq_refl R) as D.
  unfold tail_text, tail_digits, tail_pad.
  destruct t as [|a [|b [|c [|d [|e t]]]]]; cbn [length] in *; try lia.
  - cbn [Nat.eqb]. rewrite slices_groups by (assumption || lia).
    cbn [slices slices_fuel length map repeat]. rewrite !app_nil_r. reflexivity.
  - cbn [Nat.eqb]. rewrite Hq, pad_tail_app by (rewrite b32_quantum_length; lia).
    f_equal. rewrite D. reflexivity.
  - cbn [Nat.eqb]. rewrite Hq, pad_tail_app by (rewrite b32_quantum_length; lia).
    f_equal. rewrite D. reflexivity.
  - cbn [Nat.eqb]. rewrite Hq, pad_tail_app by (rewrite b32_quantum_length; lia).
    f_equal. rewrite D. reflexivity.
  - cbn [Nat.eqb]. rewrite Hq, pad_tail_app by (rewrite b32_quantum_length; lia).
    f_equal. rewrite D. reflexivity.
Qed.

Lemma digits_prefix c (ds : list Z) (m : Z) :
  0 <= c < 2^40 ->
  (ds, m) = ([0;1], 30) \/ (ds, m) = ([0;1;2;3], 20) \/
  (ds, m) = ([0;1;2;3;4], 15) \/ (ds, m) = ([0;1;2;3;4;5;6], 5) ->
  fold_left (fun a i => a * 32 + digit c i) ds 0 = c / 2^m.
Proof.
  intros R [E|[E|[E|E]]]; inversion E; subst; clear E.
  all: unfold digit; cbn [fold_left].
  all: cbn [Z.mul Z.sub Z.add Z.opp Z.pos_sub Pos.mul Pos.add Pos.succ Pos.pred_double].
  all: pow2_consts.
  all: Z.div_mod_to_equations; lia.
Qed.

Lemma tail_acc_shift t :
  (0 < length t < 5)%nat ->
  Z.shiftl (fold_left (fun a i => a * 32 + digit (tail_value t) i) (tail_digits t) 0)
           (5 * Z.of_nat (tail_pad t)) = tail_value t.
Proof.
  intros H.
  assert (R : 0 <= tail_value t < 2^40).
  { apply from_bytes_range5. rewrite length_app, repeat_length. lia. }
  unfold tail_digits, tail_pad.
  destruct t as [|a [|b [|c [|d [|e t]]]]]; cbn [length] in *; try lia.
  all: rewrite Z.shiftl_mul_pow2 by lia.
  all: erewrite digits_prefix; [|exact R|tauto].
  all: unfold tail_value in *; cbn [repeat app Nat.sub length] in *; rewrite from_bytes5 in *.
  all: change (byteZ x00) with 0 in *.
  all: cbn [Z.mul Z.of_nat Pos.of_succ_nat Pos.succ Pos.mul].
  all: pow2_consts.
  all: Z.div_mod_to_equations; lia.
Qed.

Lemma tail_text_b32 t : b32_text (tail_text t).
Proof.
  unfold tail_text, b32_text. apply Forall_map, Forall_forall.
  intros i _. apply b32tab_in.
Qed.

Lemma concat_quanta_text gs : b32_text (concat (map b32_quantum gs)).
Proof.
  induction gs as [|g gs IH]; [apply Forall_nil_2|].
  cbn [map concat]. apply Forall_app_2; [apply b32_quantum_text|exact IH].
Qed.

Lemma tail_sizes t :
  (length t < 5)%nat ->
  (length (tail_text t) + tail_pad t = if Nat.eqb (length t) 0 then 0 else 8)%nat /\
  (length t = 0 <-> tail_text t = [])%nat.
Proof.
  intros H. unfold tail_text, tail_digits, tail_pad.
  destruct t as [|a [|b [|c [|d [|e t]]]]]; cbn [length] in *; try lia.
  all: split; [reflexivity|split; intros; discriminate || reflexivity].
Qed.

Lemma b32decode_struct gs t :
  Forall (fun g => length g = 5%nat) gs -> (length t < 5)%nat ->
  b32decode (concat (map b32_quantum gs) ++ tail_text t ++ repeat "="%char (tail_pad t))
  = Ok (concat gs ++ t).
Proof.
  intros Hgs Ht.
  set (body := concat (map b32_quantum gs) ++ tail_text t).
  assert (Hbody : b32_text body)
    by (apply Forall_app_2; [apply concat_quanta_text|apply tail_text_b32]).
  destruct (tail_sizes t Ht) as [Hlen Hnil].
  unfold b32decode. rewrite app_assoc. fold body.
  (* only ASCII *)
  rewrite forallb_app, (b32_text_forall is_ascii body eq_refl Hbody).
  replace (forallb is_ascii (repeat "="%char (tail_pad t))) with true
    by (symmetry; apply forallb_forall; intros x Hx; apply repeat_spec in Hx; subst; reflexivity).
  cbn [andb negb].
  (* a whole number of quanta *)
  assert (Hl : (length (body ++ repeat "="%char (tail_pad t)) =
                8 * (length gs + if Nat.eqb (length t) 0 then 0 else 1))%nat).
  { unfold body. rewrite !length_app, repeat_length, concat_quanta_length.
    destruct (Nat.eqb (length t) 0); lia. }
  rewrite Hl. rewrite Nat.mul_comm, Nat.Div0.mod_mul. cbn [Nat.eqb negb].
  (* the padding is stripped *)
  rewrite rstrip_repeat, rstrip_clean
    by (apply (b32_text_forall (fun x => negb (Ascii.eqb x "="%char)) body eq_refl Hbody)).
  replace ((length gs + (if Nat.eqb (length t) 0 then 0 else 1)) * 8 - length body)%nat
    with (tail_pad t).
  2:{ unfold body. rewrite length_app, concat_quanta_length.
      destruct (Nat.eqb (length t) 0); lia. }
  (* the quanta *)
  unfold body.
  assert (Hq : Forall (fun q => length q = 8%nat) (map b32_quantum gs)).
  { apply Forall_map, Forall_forall. intros; apply b32_quantum_length. }
  rewrite slices_groups by (lia || exact Hq).
  rewrite mapR_app, mapR_quanta by exact Hgs. cbn [rbind].
  destruct (Nat.eq_dec (length t) 0%nat) as [E|E].
  - (* no tail *)
    assert (t = []) by (destruct t; [reflexivity|discriminate]). subst t.
    cbn [tail_text tail_digits tail_pad length map slices slices_fuel mapR rbind].
    rewrite !app_nil_r, concat_to_bytes by exact Hgs.
    cbn [existsb Nat.eqb orb negb andb]. reflexivity.
  - (* a partial last quantum *)
    assert (Hne : tail_text t <> []) by (intros C; apply Hnil in C; lia).
    rewrite slices_short by (exact Hne || (destruct (Nat.eqb (length t) 0); lia)).
    cbn [mapR]. unfold tail_text at 1.
    rewrite b32_acc_digits.
    2:{ unfold tail_digits.
        destruct t as [|a [|b [|c [|d [|e t]]]]]; cbn [length] in *; try lia;
        repeat (apply Forall_cons_2; [lia|]); apply Forall_nil_2. }
    cbn [rbind]. rewrite map_app, concat_app, concat_to_bytes by exact Hgs.
    cbn [map concat]. rewrite app_nil_r.
    rewrite last_last. rewrite tail_acc_shift by lia.
    replace (to_bytes 5 (tail_value t)) with (t ++ repeat x00 (5 - length t))
      by (symmetry; apply to_bytes5_from_bytes; rewrite length_app, repeat_length; lia).
    generalize (fold_left (fun a i => a * 32 + digit (tail_value t) i) (tail_digits t) 0).
    intros X. rewrite length_app. change (length (to_bytes 5 X)) with 5%nat.
    replace (length (concat gs) + 5 - 5)%nat with (length (concat gs)) by lia.
    rewrite firstn_app, firstn_all, Nat.sub_diag. cbn [firstn]. rewrite app_nil_r.
    unfold tail_pad.
    destruct t as [|a [|b [|c [|d [|e t]]]]]; cbn [length] in *; try lia.
    all: replace (length (concat gs) + 5 =? 0)%nat with false by (symmetry; apply Nat.eqb_neq; lia).
    all: reflexivity.
Qed.

Lemma map_b32_text (f g : ascii -> ascii) (s : str) :
  forallb (fun c => Ascii.eqb (f c) (g c)) b32alphabet = true ->
  b32_text s -> map f s = map g s.
Proof.
  intros H Hs. rewrite forallb_forall in H.
  induction Hs as [|c s Hc _ IH]; [reflexivity|].
  cbn [map]. rewrite IH. f_equal. apply Ascii.eqb_eq, H. exact Hc.
Qed.

Lemma map_repeat_fix (f : ascii -> ascii) (c : ascii) (k : nat) :
  f c = c -> map f (repeat c k) = repeat c k.
Proof. intros H. induction k as [|k IH]; [reflexivity|]. cbn [repeat map]. rewrite H, IH. reflexivity. Qed.

Lemma forallb_map' {A B} (P : B -> bool) (f : A -> B) (l : list A) :
  forallb P (map f l) = forallb (fun x => P (f x)) l.
Proof. induction l as [|a l IH]; [reflexivity|]. cbn [map forallb]. rewrite IH. reflexivity. Qed.

(** What [encode_data] returns, in terms of the quanta of its input. *)
Lemma encode_data_struct gs t :
  Forall (fun g => length g = 5%nat) gs -> (length t < 5)%nat ->
  encode_data (concat gs ++ t) = lower (concat (map b32_quantum gs) ++ tail_text t).
Proof.
  intros Hgs Ht. unfold encode_data. rewrite b32encode_struct by assumption.
  set (body := concat (map b32_quantum gs) ++ tail_text t).
  assert (Hbody : b32_text body)
    by (apply Forall_app_2; [apply concat_quanta_text|apply tail_text_b32]).
  rewrite app_assoc. fold body. unfold lower at 1. rewrite map_app.
  rewrite (map_repeat_fix lower_char) by reflexivity.
  rewrite rstrip_repeat. fold (lower body).
  assert (Hl : b32_text (upper (lower body))).
  { unfold upper, lower. rewrite map_map.
    rewrite (map_b32_text _ (fun c => c)) by (reflexivity || exact Hbody).
    rewrite map_id. exact Hbody. }
  rewrite rstrip_clean.
  - unfold replace_char, lower. rewrite map_map.
    apply (map_b32_text _ lower_char); [reflexivity|exact Hbody].
  - unfold lower. rewrite forallb_map'.
    apply (b32_text_forall (fun c => negb (Ascii.eqb (lower_char c) "="%char)));
      [reflexivity|exact Hbody].
Qed.

(** C1 — decoding the label-encoded form of any byte string gives the
    byte string back, also when the letters of the encoded name were
    changed to upper case, to lower case or to any mix of the two on the
    way; the encoded name holds only letters, digits and hyphens (in fact
    only a-z and 2-7). *)
Theorem label_encoder_roundtrip (p : bytes) :
  decode_data (encode_data p) = Ok p /\
  (forall e : str, upper e = upper (encode_data p) -> decode_data e = Ok p) /\
  decode_data (upper (encode_data p)) = Ok p /\
  decode_data (lower (encode_data p)) = Ok p /\
  forallb label_char (encode_data p) = true.
Proof.
  destruct (split_groups 5 p) as (gs & t & -> & Hgs & Ht); [lia|].
  rewrite encode_data_struct by assumption.
  set (body := concat (map b32_quantum gs) ++ tail_text t).
  assert (Hbody : b32_text body)
    by (apply Forall_app_2; [apply concat_quanta_text|apply tail_text_b32]).
  assert (Hup : upper (lower body) = body).
  { unfold upper, lower. rewrite map_map.
    rewrite (map_b32_text _ (fun c => c)) by (reflexivity || exact Hbody).
    apply map_id. }
  assert (Hfold : forall e : str, upper e = body -> decode_data e = Ok (concat gs ++ t)).
  { intros e He. unfold decode_data. rewrite He.
    assert (Hlen : length e = length body)
      by (rewrite <- He; unfold upper; rewrite length_map; reflexivity).
    rewrite Hlen.
    destruct (tail_sizes t Ht) as [Hsz _].
    replace ((8 - length body mod 8) mod 8)%nat with (tail_pad t).
    2:{ unfold body. rewrite length_app, concat_quanta_length.
        replace (8 * length gs + length (tail_text t))%nat
          with (length (tail_text t) + length gs * 8)%nat by lia.
        rewrite Nat.Div0.mod_add.
        destruct (Nat.eqb (length t) 0).
        - assert (length (tail_text t) = 0%nat) by lia.
          assert (tail_pad t = 0%nat) by lia. rewrite H, H0. reflexivity.
        - assert (length (tail_text t) = (8 - tail_pad t)%nat) by lia.
          rewrite H. unfold tail_pad.
          destruct (length t) as [|[|[|[|[|n]]]]]; reflexivity. }
    unfold replace_char. rewrite map_app.
    rewrite (map_repeat_fix _ "="%char) by reflexivity.
    rewrite (map_b32_text _ (fun c => c)) by (reflexivity || exact Hbody).
    rewrite map_id. unfold body. rewrite <- app_assoc.
    apply b32decode_struct; assumption. }
  assert (Huu : forall s : str, upper (upper s) = upper s).
  { intros s. unfold upper. rewrite map_map. apply map_ext.
    intros c. destruct c as [[] [] [] [] [] [] [] []]; reflexivity. }
  assert (Hul : forall s : str, upper (lower s) = upper s).
  { intros s. unfold upper, lower. rewrite map_map. apply map_ext.
    intros c. destruct c as [[] [] [] [] [] [] [] []]; reflexivity. }
  repeat split.
  - apply Hfold, Hup.
  - intros e He. apply Hfold. rewrite He. exact Hup.
  - apply Hfold. rewrite Huu. exact Hup.
  - apply Hfold. rewrite Hul. exact Hup.
  - unfold lower. rewrite forallb_map'.
    apply (b32_text_forall (fun c => label_char (lower_char c))); [reflexivity|exact Hbody].
Qed.

(** ** Result chunks *)

Section ResultChunks.

Context {W : Type}.
Variable ext : Externals W.

Lemma dict_get_remove (k : str) (d : list (str * json)) :
  dict_get k (dict_remove k d) = None.
Proof.
  induction d as [|[k' v] d IH]; [reflexivity|].
  unfold dict_remove in *. cbn [List.filter fst].
  destruct (str_eqb k' k) eqn:Hk; cbn [negb]; [exact IH|].
  cbn [dict_get]. rewrite Hk. exact IH.
Qed.

(** The keywords left after [result.pop('task_id')] lack the field that
    [TaskResult] requires. *)
Lemma TaskResult_init_popped (items : list (str * json)) :
  TaskResult_init ext (dict_remove (lit "task_id") items) = Raise ValidationError.
Proof. unfold TaskResult_init. rewrite dict_get_remove. reflexivity. Qed.

Lemma process_result_raises (message_id : str) (full_data : bytes) (now : Z) (s : Sys W) :
  exists e, process_result ext message_id full_data now s = (Raise e, s).
Proof.
  unfold process_result, bind, lift.
  destruct (json_loads ext full_data) as [j|e]; [|eauto].
  destruct j; eauto.
  destruct (dict_get (lit "task_id") items) as [v|]; [|eauto].
  rewrite TaskResult_init_popped. eauto.
Qed.

Lemma store_chunk_lookup message_id chunk_num total chunk_data now l :
  incoming_messages (store_chunk message_id chunk_num total chunk_data now l) !! message_id =
  Some match incoming_messages l !! message_id with
       | Some b => {| chunks := <[chunk_num := chunk_data]> (chunks b);
                      total_chunks := total_chunks b; timestamp := timestamp b |}
       | None => {| chunks := {[chunk_num := chunk_data]};
                    total_chunks := total; timestamp := now |}
       end.
Proof.
  unfold store_chunk. cbn [incoming_messages].
  destruct (incoming_messages l !! message_id) as [b|] eqn:Hb.
  - rewrite Hb. apply lookup_insert_eq.
  - rewrite lookup_insert_eq. rewrite lookup_insert_eq. reflexivity.
Qed.

Lemma handle_result_query_stored message_id part1 part2 rest transaction_id now s
    chunk_num total chunk_data :
  py_int ext part1 = Ok chunk_num ->
  py_int ext part2 = Ok total ->
  match rest with [] => Ok [] | _ => decode_data (join "."%char rest) end = Ok chunk_data ->
  let l := store_chunk message_id chunk_num total chunk_data now (listener s) in
  handle_result_query ext (message_id :: part1 :: part2 :: rest) transaction_id now s =
  (Ok (chunk_ack l message_id chunk_num total), with_listener s l).
Proof.
  intros H1 H2 H3 l. unfold handle_result_query, try_except, bind, lift.
  rewrite H1, H2, H3. cbn [get_listener set_listener listener].
  unfold chunk_ack. fold l.
  pose proof (store_chunk_lookup message_id chunk_num total chunk_data now (listener s)) as Hl.
  fold l in Hl. rewrite Hl. cbn [listener].
  match goal with |- context [Z.of_nat (size ?c) =? total] =>
    destruct (Z.of_nat (size c) =? total) end.
  - destruct (reassemble _ total) as [full|e]; [|reflexivity].
    match goal with |- context [process_result ext ?m ?d ?n ?st] =>
      destruct (process_result_raises m d n st) as [e He]; rewrite He end.
    reflexivity.
  - reflexivity.
Qed.

(** What [handle_result_query] does, in one equation: a query that does
    not convert is answered ERROR and changes nothing; any other stores its
    chunk and is acknowledged by [chunk_ack]. *)
Lemma handle_result_query_eq parts transaction_id now s :
  handle_result_query ext parts transaction_id now s =
  match parse_chunk ext parts with
  | None => (Ok build_error_response, s)
  | Some (message_id, chunk_num, total, chunk_data) =>
      let l := store_chunk message_id chunk_num total chunk_data now (listener s) in
      (Ok (chunk_ack l message_id chunk_num total), with_listener s l)
  end.
Proof.
  unfold parse_chunk.
  destruct parts as [|message_id [|part1 [|part2 rest]]]; try reflexivity.
  destruct (py_int ext part1) as [n|e1] eqn:H1.
  2:{ unfold handle_result_query, try_except, bind, lift. rewrite H1. reflexivity. }
  destruct (py_int ext part2) as [t|e2] eqn:H2.
  2:{ unfold handle_result_query, try_except, bind, lift. rewrite H1, H2. reflexivity. }
  destruct (match rest with [] => Ok [] | _ => decode_data (join "."%char rest) end)
    as [d|e3] eqn:H3.
  2:{ unfold handle_result_query, try_except, bind, lift. rewrite H1, H2, H3. reflexivity. }
  apply handle_result_query_stored; assumption.
Qed.

Lemma store_chunk_again message_id chunk_num total chunk_data now1 now2 l :
  store_chunk message_id chunk_num total chunk_data now2
    (store_chunk message_id chunk_num total chunk_data now1 l) =
  store_chunk message_id chunk_num total chunk_data now1 l.
Proof.
  set (l1 := store_chunk message_id chunk_num total chunk_data now1 l).
  pose proof (store_chunk_lookup message_id chunk_num total chunk_data now1 l) as H1.
  fold l1 in H1.
  unfold store_chunk at 1.
  destruct l1 as [inc out ses] eqn:El. cbn [incoming_messages outgoing_messages agent_sessions] in *.
  rewrite !H1. cbn [chunks total_chunks timestamp].
  f_equal. apply insert_id. rewrite H1. f_equal.
  destruct (incoming_messages l !! message_id) as [b|];
    cbn [chunks total_chunks timestamp]; f_equal; symmetry; apply insert_insert_eq.
Qed.

End ResultChunks.

(** ** Text that is not base-32 *)

Lemma b32_acc_raises (q : str) (acc : Z) (e : exn) :
  b32_acc acc q = Raise e -> e = BinasciiError.
Proof.
  revert acc. induction q as [|c q IH]; intros acc H; [discriminate|].
  cbn [b32_acc] in H. destruct (b32rev c); [eauto|congruence].
Qed.

Lemma b32_acc_bad (q : str) (c : ascii) (acc : Z) :
  In c q -> b32rev c = None -> b32_acc acc q = Raise BinasciiError.
Proof.
  revert acc. induction q as [|x q IH]; intros acc Hin Hc; [destruct Hin|].
  cbn [b32_acc]. destruct Hin as [->|Hin].
  - rewrite Hc. reflexivity.
  - destruct (b32rev x); [apply IH; assumption|reflexivity].
Qed.

Lemma mapR_b32_bad (l : list str) (q : str) (c : ascii) :
  In q l -> In c q -> b32rev c = None -> mapR (b32_acc 0) l = Raise BinasciiError.
Proof.
  induction l as [|x l IH]; intros Hq Hc Hrev; [destruct Hq|].
  cbn [mapR]. destruct Hq as [->|Hq].
  - rewrite (b32_acc_bad q c 0 Hc Hrev). reflexivity.
  - destruct (b32_acc 0 x) as [a|e] eqn:Hx.
    + cbn [rbind]. rewrite IH by assumption. reflexivity.
    + apply b32_acc_raises in Hx. subst. reflexivity.
Qed.

Lemma in_lstrip_rev (c x : ascii) (s : str) :
  In x s -> x <> c -> In x (rstrip c s).
Proof.
  intros Hin Hne. unfold rstrip. apply in_rev in Hin. apply in_rev.
  rewrite rev_involutive.
  induction (rev s) as [|y r IH]; [destruct Hin|].
  cbn [lstrip]. destruct (Ascii.eqb y c) eqn:Hy.
  - apply Ascii.eqb_eq in Hy. subst y. destruct Hin as [->|Hin]; [congruence|].
    apply IH. exact Hin.
  - exact Hin.
Qed.

(** A character outside the base-32 alphabet, other than the padding
    character, makes [b32decode] raise. *)
Lemma b32decode_bad (s : str) (c : ascii) :
  In c s -> b32rev c = None -> c <> "="%char -> exists e, b32decode s = Raise e.
Proof.
  intros Hin Hrev Hne. unfold b32decode.
  destruct (forallb is_ascii s); cbn [negb]; [|eauto].
  destruct (Nat.eqb (length s mod 8) 0); cbn [negb]; [|eauto].
  assert (Hs : In c (rstrip "="%char s)) by (apply in_lstrip_rev; assumption).
  rewrite <- (concat_slices 8 (rstrip "=" s)) in Hs by lia.
  apply in_concat in Hs. destruct Hs as (q & Hq & Hc).
  rewrite (mapR_b32_bad _ q c Hq Hc Hrev). cbn [rbind]. eauto.
Qed.

Lemma decode_data_bad (s : str) (c : ascii) :
  In c s -> b32rev (upper_char c) = None -> upper_char c <> "="%char ->
  upper_char c <> "-"%char ->
  exists e, decode_data s = Raise e.
Proof.
  intros Hin Hrev Hne Hhy. unfold decode_data.
  apply (b32decode_bad _ (upper_char c)); [|exact Hrev|exact Hne].
  unfold replace_char. apply in_map_iff. exists (upper_char c). split.
  - destruct (Ascii.eqb (upper_char c) "-") eqn:Hc; [|reflexivity].
    apply Ascii.eqb_eq in Hc. congruence.
  - apply in_or_app. left. unfold upper. apply in_map. exact Hin.
Qed.

Lemma join_has_separator (c : ascii) (p q : str) (rest : list str) :
  In c (join c (p :: q :: rest)).
Proof. cbn [join]. apply in_or_app. right. left. reflexivity. Qed.

(** Labels joined with dots never decode. *)
Lemma decode_data_dotted (p q : str) (rest : list str) :
  exists e, decode_data (join "."%char (p :: q :: rest)) = Raise e.
Proof.
  apply (decode_data_bad _ "."%char); [apply join_has_separator| |discriminate|discriminate].
  reflexivity.
Qed.

(** ** The handlers *)

Section Handlers.

Context {W : Type}.
Variable ext : Externals W.
Variable cfg : Config.

(** With fewer than two labels the check-in handler stops at its guard;
    with two or more it passes the labels joined by dots to [decode_data],
    which raises on the dot. *)
Lemma handle_checkin_query_eq (parts : list str) (transaction_id now : Z) (s : Sys W) :
  handle_checkin_query ext parts transaction_id now s = (Ok build_error_response, s).
Proof.
  unfold handle_checkin_query.
  destruct parts as [|p [|q rest]]; try reflexivity.
  cbn [length Nat.ltb Nat.leb]. unfold try_except, bind, lift.
  destruct (decode_data_dotted p q rest) as [e He]. rewrite He. reflexivity.
Qed.

(** C7 — the check-in handler answers ERROR to every query and never
    writes [agent_sessions]: with fewer than two labels it stops at its
    guard, and with two or more it passes the labels joined by dots to
    [decode_data], which raises on the dot.  So no check-in succeeds and no
    binding transactionId -> agentId is ever stored. *)
Theorem handle_checkin_query_never_binds (parts : list str) (transaction_id now : Z) (s : Sys W) :
  handle_checkin_query ext parts transaction_id now s = (Ok build_error_response, s) /\
  agent_sessions (listener (snd (handle_checkin_query ext parts transaction_id now s))) =
    agent_sessions (listener s).
Proof. rewrite handle_checkin_query_eq. split; reflexivity. Qed.

Lemma handle_beacon_query_listener (parts : list str) (transaction_id now : Z) (s : Sys W) :
  listener (snd (handle_beacon_query ext parts transaction_id now s)) = listener s /\
  submitted (snd (handle_beacon_query ext parts transaction_id now s)) = submitted s.
Proof.
  unfold handle_beacon_query, bind, get_listener, call, ret.
  destruct (truthy (agent_sessions (listener s) !! transaction_id)) as [a|]; [|split; reflexivity].
  destruct (touch_last_seen ext a now (world s)) as [[u|e] w]; split; reflexivity.
Qed.

(** What a task query leaves behind: the reassembly buffers and the
    sessions as they were, and the outgoing queue either as it was or with
    one entry overwritten by the chunks of the task just pulled. *)
Lemma handle_task_query_listener (parts : list str) (transaction_id now : Z) (s : Sys W) :
  let s' := snd (handle_task_query ext cfg parts transaction_id now s) in
  incoming_messages (listener s') = incoming_messages (listener s) /\
  agent_sessions (listener s') = agent_sessions (listener s) /\
  submitted s' = submitted s /\
  (outgoing_messages (listener s') = outgoing_messages (listener s) \/
   exists agent_id task_data message_id chunks,
     200 < len task_data /\
     split_data cfg task_data message_id = Ok chunks /\
     outgoing_messages (listener s') = <[agent_id := chunks]> (outgoing_messages (listener s))).
Proof.
  unfold handle_task_query.
  destruct parts as [|part0 rest]; [cbn; auto|].
  unfold bind, get_listener, call, lift, ret, set_listener.
  destruct (resolve_agent ext (listener s) part0 transaction_id) as [agent_id|e]; [|cbn; auto].
  destruct (pull_task ext agent_id now (world s)) as [[[task|]|e] w]; cbn [listener submitted snd]; auto.
  destruct (dumps_task ext task) as [task_data|e]; cbn [listener submitted snd]; auto.
  destruct (200 <? len task_data) eqn:Hlen; cbn [listener submitted snd]; auto.
  destruct (split_data cfg task_data _) as [chunks|e] eqn:Hs; cbn [listener submitted snd]; auto.
  repeat split; try reflexivity. right.
  exists agent_id, task_data, (lit "t" ++ firstn 8 (task_id task)), chunks.
  repeat split; [lia|exact Hs].
Qed.

Lemma store_chunk_others message_id chunk_num total chunk_data now l :
  outgoing_messages (store_chunk message_id chunk_num total chunk_data now l) = outgoing_messages l /\
  agent_sessions (store_chunk message_id chunk_num total chunk_data now l) = agent_sessions l /\
  forall m, m <> message_id ->
    incoming_messages (store_chunk message_id chunk_num total chunk_data now l) !! m =
    incoming_messages l !! m.
Proof.
  repeat split. intros m Hm. unfold store_chunk. cbn [incoming_messages].
  destruct (incoming_messages l !! message_id) as [b|] eqn:Hb.
  - rewrite Hb. rewrite lookup_insert_ne by congruence. reflexivity.
  - rewrite lookup_insert_eq. rewrite !lookup_insert_ne by congruence. reflexivity.
Qed.

(** No handler removes a reassembly buffer, writes a session or touches
    the outgoing queue other than by overwriting an entry with fresh
    chunks. *)
Lemma handle_agent_query_listener (qname : str) (qtype transaction_id now : Z) (s : Sys W) :
  let s' := snd (handle_agent_query ext cfg qname qtype transaction_id now s) in
  (forall m b, incoming_messages (listener s) !! m = Some b ->
               is_Some (incoming_messages (listener s') !! m)) /\
  agent_sessions (listener s') = agent_sessions (listener s) /\
  submitted s' = submitted s /\
  (outgoing_messages (listener s') = outgoing_messages (listener s) \/
   exists agent_id task_data message_id chunks,
     200 < len task_data /\
     split_data cfg task_data message_id = Ok chunks /\
     outgoing_messages (listener s') = <[agent_id := chunks]> (outgoing_messages (listener s))).
Proof.
  unfold handle_agent_query.
  assert (Hsame : forall A (r : result A),
    let s' := snd (r, s) in
    (forall m b, incoming_messages (listener s) !! m = Some b ->
                 is_Some (incoming_messages (listener s') !! m)) /\
    agent_sessions (listener s') = agent_sessions (listener s) /\
    submitted s' = submitted s /\
    (outgoing_messages (listener s') = outgoing_messages (listener s) \/
     exists agent_id task_data message_id chunks,
       200 < len task_data /\
       split_data cfg task_data message_id = Ok chunks /\
       outgoing_messages (listener s') = <[agent_id := chunks]> (outgoing_messages (listener s)))).
  { intros A r. cbn. split; [eauto|split; [reflexivity|split; [reflexivity|left; reflexivity]]]. }
  destruct (endswith qname _); cbn [negb]; [|apply (Hsame _ (Ok None))].
  destruct (firstn _ qname) as [|c sub]; [apply (Hsame _ (Ok None))|].
  destruct (split_on "." (c :: sub)) as [|part0 rest]; [apply (Hsame _ (Raise IndexError))|].
  destruct (str_eqb part0 (lit "checkin")).
  { unfold some, bind. rewrite handle_checkin_query_eq. apply (Hsame _ (Ok (Some build_error_response))). }
  destruct (str_eqb part0 (lit "task")).
  { unfold some, bind.
    pose proof (handle_task_query_listener rest transaction_id now s) as H.
    destruct (handle_task_query ext cfg rest transaction_id now s) as [[r|e] s1];
      cbn [snd ret] in *; destruct H as (Hi & Hs & Hsub & Ho);
      (split; [intros m b Hb; rewrite Hi; eauto|split; [exact Hs|split; [exact Hsub|exact Ho]]]). }
  destruct (str_eqb part0 (lit "result")).
  { unfold some, bind. rewrite handle_result_query_eq.
    destruct (parse_chunk ext rest) as [[[[mid n] t] d]|]; [|apply (Hsame _ (Ok (Some build_error_response)))].
    cbn [snd ret with_listener listener submitted].
    destruct (store_chunk_others mid n t d now (listener s)) as (Ho & Hs & Hi).
    split; [|split; [exact Hs|split; [reflexivity|left; exact Ho]]].
    intros m b Hb. destruct (decide (m = mid)) as [->|Hne].
    - rewrite store_chunk_lookup. eauto.
    - rewrite Hi by exact Hne. eauto. }
  destruct (str_eqb part0 (lit "beacon")).
  { unfold some, bind.
    pose proof (handle_beacon_query_listener rest transaction_id now s) as [Hl Hsub].
    destruct (handle_beacon_query ext rest transaction_id now s) as [[r|e] s1];
      cbn [snd ret] in *; rewrite Hl; (split; [eauto|split; [reflexivity|split; [exact Hsub|left; reflexivity]]]). }
  apply (Hsame _ (Ok None)).
Qed.

End Handlers.

(** ** Redelivery, completion and the sweep *)

Lemma foldr_delete_lookup {V} (m : gmap str V) (ks : list str) (k : str) :
  foldr delete m ks !! k = if bool_decide (k ∈ ks) then None else m !! k.
Proof.
  induction ks as [|x ks IH]; [reflexivity|].
  cbn [foldr]. destruct (decide (x = k)) as [->|Hne].
  - rewrite lookup_delete_eq. rewrite bool_decide_eq_true_2 by (left). reflexivity.
  - rewrite lookup_delete_ne by exact Hne. rewrite IH.
    destruct (bool_decide (k ∈ ks)) eqn:Hk.
    + apply bool_decide_eq_true in Hk. rewrite bool_decide_eq_true_2 by (right; exact Hk). reflexivity.
    + apply bool_decide_eq_false in Hk.
      rewrite bool_decide_eq_false_2; [reflexivity|].
      intros Hin. apply elem_of_cons in Hin. destruct Hin; [congruence|contradiction].
Qed.

(** What a sweep leaves of [incoming_messages]: the buffers that are not
    expired, untouched. *)
Lemma cleanup_sweep_lookup (now : Z) (l : Listener) (k : str) :
  incoming_messages (cleanup_sweep now l) !! k =
  match incoming_messages l !! k with
  | Some b => if is_expired now b then None else Some b
  | None => None
  end.
Proof.
  unfold cleanup_sweep. cbn [incoming_messages]. rewrite foldr_delete_lookup.
  destruct (incoming_messages l !! k) as [b|] eqn:Hb.
  - destruct (is_expired now b) eqn:He.
    + rewrite bool_decide_eq_true_2; [reflexivity|].
      apply list_elem_of_In, in_map_iff. exists (k, b). split; [reflexivity|].
      apply filter_In. split; [|exact He].
      apply list_elem_of_In, elem_of_map_to_list. exact Hb.
    + rewrite bool_decide_eq_false_2; [reflexivity|].
      intros Hin. apply list_elem_of_In, in_map_iff in Hin.
      destruct Hin as ([k' b'] & Hk & Hin). cbn in Hk. subst k'.
      apply filter_In in Hin. destruct Hin as [Hin He'].
      apply list_elem_of_In, elem_of_map_to_list in Hin. cbn in He'. congruence.
  - destruct (bool_decide _) eqn:Hd; [|reflexivity].
    apply bool_decide_eq_true in Hd. apply list_elem_of_In, in_map_iff in Hd.
    destruct Hd as ([k' b'] & Hk & Hin). cbn in Hk. subst k'.
    apply filter_In in Hin. destruct Hin as [Hin _].
    apply list_elem_of_In, elem_of_map_to_list in Hin. congruence.
Qed.

Section ResultClaims.

Context {W : Type}.
Variable ext : Externals W.

(** C3 — delivering the same result chunk query twice gives the same
    acknowledgement both times, leaves the listener after the second
    delivery exactly as it was after the first (the stored chunk is
    overwritten with the same bytes and the number of stored chunks does not
    change), and calls [submit_task_result] at most once over the two
    deliveries (in fact never: the completion path stops at the construction
    of [TaskResult]). *)
Theorem result_chunk_redelivery (parts : list str) (tx1 tx2 now1 now2 : Z) (s : Sys W) :
  let r1 := handle_result_query ext parts tx1 now1 s in
  let r2 := handle_result_query ext parts tx2 now2 (snd r1) in
  fst r2 = fst r1 /\
  (exists ack, fst r1 = Ok ack) /\
  snd r2 = snd r1 /\
  (length (submitted (snd r2)) <= length (submitted s) + 1)%nat /\
  submitted (snd r2) = submitted s.
Proof.
  cbv zeta. rewrite !handle_result_query_eq.
  destruct (parse_chunk ext parts) as [[[[mid n] t] d]|]; cbn [fst snd].
  - unfold with_listener. cbn [fst snd listener world submitted]. rewrite store_chunk_again.
    repeat split; try (eexists; reflexivity). lia.
  - repeat split; try (eexists; reflexivity). lia.
Qed.

(** C10 — when the chunk just stored completes the buffer, the handler
    answers ERROR whenever deserialisation or submission raises (and one of
    them always does), the buffer stays in [incoming_messages] with all its
    chunks, nothing is recorded as submitted, and delivering the chunk again
    runs into the completion path again (ERROR, not CHUNK). *)
Theorem completed_buffer_kept_on_failure (parts : list str) (tx now : Z) (s : Sys W)
    (mid : str) (n t : Z) (d : bytes) (b : Buffer) :
  parse_chunk ext parts = Some (mid, n, t, d) ->
  incoming_messages (store_chunk mid n t d now (listener s)) !! mid = Some b ->
  Z.of_nat (size (chunks b)) = t ->
  let r := handle_result_query ext parts tx now s in
  fst r = Ok build_error_response /\
  incoming_messages (listener (snd r)) !! mid = Some b /\
  chunks b !! n = Some d /\
  submitted (snd r) = submitted s /\
  forall tx' now',
    fst (handle_result_query ext parts tx' now' (snd r)) = Ok build_error_response.
Proof.
  intros Hp Hb Hsz. cbv zeta.
  assert (Hack : chunk_ack (store_chunk mid n t d now (listener s)) mid n t = build_error_response).
  { unfold chunk_ack. rewrite Hb. rewrite Hsz, Z.eqb_refl. reflexivity. }
  rewrite handle_result_query_eq, Hp. unfold with_listener. cbn [fst snd listener submitted].
  split; [rewrite Hack; reflexivity|]. split; [exact Hb|]. split.
  { rewrite store_chunk_lookup in Hb. injection Hb as <-.
    destruct (incoming_messages (listener s) !! mid); cbn [chunks].
    - apply lookup_insert_eq.
    - apply lookup_singleton_eq. }
  split; [reflexivity|].
  intros tx' now'. rewrite handle_result_query_eq, Hp. cbn [fst listener].
  rewrite store_chunk_again, Hack. reflexivity.
Qed.

(** C8 — a sweep removes every buffer whose timestamp lies more than 600
    seconds back and keeps the others as they are; after the removal a
    chunk with the same message id starts a buffer that holds just that
    chunk and carries the arrival time; and no query handler removes a
    buffer, so the sweep is the only way a transfer is reclaimed. *)
Theorem reassembly_sweep (cfg : Config) (now : Z) (l : Listener) (mid : str) (b : Buffer) :
  incoming_messages l !! mid = Some b ->
  (600 * 1000000 < now - timestamp b ->
     incoming_messages (cleanup_sweep now l) !! mid = None /\
     forall parts tx now' w sub n t d,
       parse_chunk ext parts = Some (mid, n, t, d) ->
       incoming_messages
         (listener (snd (handle_result_query ext parts tx now'
                           (Build_Sys (cleanup_sweep now l) w sub)))) !! mid =
       Some {| chunks := {[n := d]}; total_chunks := t; timestamp := now' |}) /\
  (now - timestamp b <= 600 * 1000000 ->
     incoming_messages (cleanup_sweep now l) !! mid = Some b) /\
  (forall qname qtype tx now' w sub,
     is_Some (incoming_messages
       (listener (snd (handle_agent_query ext cfg qname qtype tx now' (Build_Sys l w sub)))) !! mid)).
Proof.
  intros Hb. split; [|split].
  - intros Hold.
    assert (Hgone : incoming_messages (cleanup_sweep now l) !! mid = None).
    { rewrite cleanup_sweep_lookup, Hb. unfold is_expired.
      destruct (600 * 1000000 <? now - timestamp b) eqn:H; [reflexivity|lia]. }
    split; [exact Hgone|].
    intros parts tx now' w sub n t d Hp.
    rewrite handle_result_query_eq, Hp. unfold with_listener. cbn [snd listener].
    rewrite store_chunk_lookup, Hgone. reflexivity.
  - intros Hyoung. rewrite cleanup_sweep_lookup, Hb. unfold is_expired.
    destruct (600 * 1000000 <? now - timestamp b) eqn:H; [lia|reflexivity].
  - intros qname qtype tx now' w sub.
    destruct (handle_agent_query_listener ext cfg qname qtype tx now' (Build_Sys l w sub))
      as (Hi & _). apply (Hi mid b). exact Hb.
Qed.

End ResultClaims.

(** ** Task delivery *)

Lemma build_txt_response_short (data : bytes) :
  data <> [] -> (length data <= 255)%nat ->
  build_txt_response data = Z_to_byte (len data) :: data.
Proof.
  intros Hne Hlen. unfold build_txt_response.
  rewrite slices_short by assumption. cbn [flat_map]. apply app_nil_r.
Qed.

Section TaskClaims.

Context {W : Type}.
Variable ext : Externals W.
Variable cfg : Config.

(** C6 — a task whose serialisation is exactly 200 bytes is answered
    whole, as one length-prefixed text segment, and the outgoing queue is
    left alone; one of 201 bytes is answered with the marker
    MULTI:<messageId>:<totalChunks> and its chunks are stored under the
    agent id.  ([chunk_size] must not be 0, or [split_data] divides by
    zero.) *)
Theorem chunking_boundary (part0 : str) (rest : list str) (tx now : Z) (s : Sys W)
    (agent_id : str) (task : Task) (task_data : bytes) (w' : W) :
  resolve_agent ext (listener s) part0 tx = Ok agent_id ->
  pull_task ext agent_id now (world s) = (Ok (Some task), w') ->
  dumps_task ext task = Ok task_data ->
  chunk_size cfg <> 0 ->
  (len task_data = 200 ->
     handle_task_query ext cfg (part0 :: rest) tx now s =
       (Ok (Z_to_byte 200 :: task_data), Build_Sys (listener s) w' (submitted s))) /\
  (len task_data = 201 ->
     let message_id := lit "t" ++ firstn 8 (task_id task) in
     exists chunks,
       split_data cfg task_data message_id = Ok chunks /\
       handle_task_query ext cfg (part0 :: rest) tx now s =
         (Ok (build_txt_response
                (str_encode (lit "MULTI:" ++ message_id ++ lit ":" ++ str_of_Z (len chunks)))),
          Build_Sys {| incoming_messages := incoming_messages (listener s);
                       outgoing_messages := <[agent_id := chunks]> (outgoing_messages (listener s));
                       agent_sessions := agent_sessions (listener s) |}
                    w' (submitted s))).
Proof.
  intros Hr Hp Hd Hcs. split.
  - intros Hlen. unfold handle_task_query, bind, get_listener, call, lift, ret.
    rewrite Hr, Hp. cbn [listener]. rewrite Hd.
    replace (200 <? len task_data) with false by (symmetry; apply Z.ltb_ge; lia).
    rewrite build_txt_response_short.
    + rewrite Hlen. reflexivity.
    + intros ->. discriminate.
    + unfold len in Hlen. lia.
  - intros Hlen message_id.
    assert (Hs : exists chunks, split_data cfg task_data message_id = Ok chunks).
    { unfold split_data. destruct (chunk_size cfg =? 0) eqn:H0; [lia|].
      destruct (chunk_size cfg <? 0); eauto. }
    destruct Hs as [chunks Hs]. exists chunks. split; [exact Hs|].
    unfold handle_task_query, bind, get_listener, call, lift, ret, set_listener.
    rewrite Hr, Hp. cbn [listener]. rewrite Hd.
    replace (200 <? len task_data) with true by (symmetry; apply Z.ltb_lt; lia).
    fold message_id. rewrite Hs. reflexivity.
Qed.

End TaskClaims.

Lemma chunking_boundary_witness :
  resolve_agent (sim_externals []) new_listener a1_label 1 = Ok (lit "a1") /\
  len (task_text (task_of_size 141)) = 200 /\
  fst (handle_task_query (sim_externals []) c2_test [a1_label] 1 0 (start (db_with_task 141))) =
    Ok (Z_to_byte 200 :: task_text (task_of_size 141)) /\
  len (task_text (task_of_size 142)) = 201 /\
  exists chunks : list str,
    fst (handle_task_query (sim_externals []) c2_test [a1_label] 1 0 (start (db_with_task 142))) =
      Ok (build_txt_response
            (str_encode (lit "MULTI:t01234567:" ++ str_of_Z (len chunks)))).
Proof.
  split; [vm_compute; reflexivity|].
  split; [vm_compute; reflexivity|]. split; [|split; [vm_compute; reflexivity|]].
  - exact (f_equal fst (proj1 (chunking_boundary (sim_externals []) c2_test a1_label [] 1 0
      (start (db_with_task 141)) (lit "a1") (task_of_size 141)
      (task_text (task_of_size 141)) []
      ltac:(vm_compute; reflexivity) ltac:(vm_compute; reflexivity)
      ltac:(vm_compute; reflexivity) ltac:(vm_compute; congruence))
      ltac:(vm_compute; reflexivity))).
  - destruct (proj2 (chunking_boundary (sim_externals []) c2_test a1_label [] 1 0
      (start (db_with_task 142)) (lit "a1") (task_of_size 142)
      (task_text (task_of_size 142)) []
      ltac:(vm_compute; reflexivity) ltac:(vm_compute; reflexivity)
      ltac:(vm_compute; reflexivity) ltac:(vm_compute; congruence))
      ltac:(vm_compute; reflexivity)) as (chunks & _ & H).
    exists chunks. rewrite H. reflexivity.
Defined.

Lemma completed_buffer_kept_on_failure_witness :
  parse_chunk (sim_externals result_table) (foobar_chunk (lit "1")) =
    Some (lit "m1", 0, 1, blit "foobar") /\
  json_loads (sim_externals result_table) (blit "foobar") =
    Ok (JObj [(lit "task_id", JStr (lit "t1")); (lit "status", JStr (lit "completed"))]) /\
  fst (handle_result_query (sim_externals result_table) (foobar_chunk (lit "1")) 7 5 (start [])) =
    Ok build_error_response.
Proof.
  split; [vm_compute; reflexivity|]. split; [vm_compute; reflexivity|].
  exact (proj1 (completed_buffer_kept_on_failure (sim_externals result_table)
    (foobar_chunk (lit "1")) 7 5 (start []) (lit "m1") 0 1 (blit "foobar") (foobar_buffer 1 5)
    ltac:(vm_compute; reflexivity) ltac:(vm_compute; reflexivity)
    ltac:(vm_compute; reflexivity))).
Defined.

Lemma reassembly_sweep_witness :
  let l := store_chunk (lit "m1") 0 2 (blit "foobar") 0 new_listener in
  incoming_messages l !! lit "m1" = Some (foobar_buffer 2 0) /\
  incoming_messages (cleanup_sweep 600000001 l) !! lit "m1" = None /\
  incoming_messages (cleanup_sweep 600000000 l) !! lit "m1" = Some (foobar_buffer 2 0).
Proof.
  cbv zeta. split; [vm_compute; reflexivity|]. split.
  - exact (proj1 (proj1 (reassembly_sweep (sim_externals []) c2_test 600000001
      (store_chunk (lit "m1") 0 2 (blit "foobar") 0 new_listener) (lit "m1") (foobar_buffer 2 0)
      ltac:(vm_compute; reflexivity)) ltac:(vm_compute; reflexivity))).
  - exact (proj1 (proj2 (reassembly_sweep (sim_externals []) c2_test 600000000
      (store_chunk (lit "m1") 0 2 (blit "foobar") 0 new_listener) (lit "m1") (foobar_buffer 2 0)
      ltac:(vm_compute; reflexivity))) ltac:(vm_compute; congruence)).
Defined.

(** ** Defects shown on concrete queries *)

(** C2 — [process_query] raises on a datagram shorter than two bytes: the
    header does not unpack, the handler of the [except] clause calls
    [build_servfail_response(data[:2])], and that unpacks the same short
    bytes outside any [try]. *)
Theorem process_query_short_datagram_raises {W : Type} (ext : Externals W) (cfg : Config)
    (b : byte) (now : Z) (s : Sys W) :
  process_query ext cfg [] now s = (Raise StructError, s) /\
  process_query ext cfg [b] now s = (Raise StructError, s).
Proof. split; reflexivity. Qed.

(** C5 — the TXT query for [beaconx.c2.test], whose first label is none
    of checkin, task, result, beacon, is answered with a success response
    (flags 0x8180, one answer) carrying PONG: the subdomain is cut one
    character short, so the label is read as [beacon]. *)
Theorem unrecognized_label_answered {W : Type} (ext : Externals W) (w : W) :
  let query := query_bytes 4660 [lit "beaconx"; lit "c2"; lit "test"] DNSType_TXT DNSClass_IN in
  let s := Build_Sys new_listener w [] in
  parse_dns_query query = Ok (4660, [(lit "beaconx.c2.test", DNSType_TXT, DNSClass_IN)]) /\
  process_query ext c2_test query 0 s =
    (build_dns_response 4660 [(lit "beaconx.c2.test", DNSType_TXT, DNSClass_IN)]
       [(lit "beaconx.c2.test", DNSType_TXT, DNSClass_IN, 300, Z_to_byte 4 :: blit "PONG")], s) /\
  exists rest,
    fst (process_query ext c2_test query 0 s) =
      Ok (to_bytes 2 4660 ++ to_bytes 2 33152 ++ to_bytes 2 1 ++ to_bytes 2 1 ++ rest).
Proof.
  cbv zeta. split; [vm_compute; reflexivity|]. split; [vm_compute; reflexivity|].
  eexists. vm_compute. reflexivity.
Qed.

(** C4 — a 600-byte task pulled with 50-byte chunks is answered
    MULTI:<id>:12 and its 12 chunks are stored under the agent id, but no
    handler reads [outgoing_messages]: every following poll is answered
    NOTASK and leaves the 12 chunks where they are. *)
Theorem queued_chunks_never_delivered :
  let ext := sim_externals [] in
  let first := handle_task_query ext c2_test [a1_label] 1 0 (start (db_with_task 541)) in
  len (task_text (task_of_size 541)) = 600 /\
  fst first = Ok (build_txt_response (blit "MULTI:t01234567:12")) /\
  (length <$> outgoing_messages (listener (snd first)) !! lit "a1") = Some 12%nat /\
  forall k : nat,
    fst (handle_task_query ext c2_test [a1_label] 1 0 (Nat.iter k poll (snd first))) =
      Ok (build_txt_response (blit "NOTASK")) /\
    outgoing_messages (listener (Nat.iter k poll (snd first))) =
      outgoing_messages (listener (snd first)).
Proof.
  cbv zeta. split; [vm_compute; reflexivity|]. split; [vm_compute; reflexivity|].
  split; [vm_compute; reflexivity|].
  set (s1 := snd (handle_task_query (sim_externals []) c2_test [a1_label] 1 0
                    (start (db_with_task 541)))).
  assert (Hpoll : poll s1 = s1) by (vm_compute; reflexivity).
  assert (Hiter : forall k, Nat.iter k poll s1 = s1).
  { induction k as [|k IH]; [reflexivity|].
    change (Nat.iter (S k) poll s1) with (poll (Nat.iter k poll s1)).
    rewrite IH. exact Hpoll. }
  intros k. rewrite Hiter. split; [vm_compute; reflexivity|reflexivity].
Qed.

(** ** What the parser returns can be written back *)

Lemma unpack_H_range (s : bytes) (z : Z) : unpack_H s = Ok z -> 0 <= z < 65536.
Proof.
  destruct s as [|h [|l [|x s]]]; try discriminate. cbn [unpack_H].
  intros [= <-]. pose proof (byteZ_range h). pose proof (byteZ_range l). lia.
Qed.

Lemma label_length_bound (b : byte) :
  (Z.land (byteZ b) 192 =? 192) = false -> byteZ b < 192.
Proof. destruct b; vm_compute; congruence. Qed.

Lemma is_ascii_of_byte (x : byte) : is_ascii (ascii_of_byte x) = (byteZ x <? 128).
Proof. unfold is_ascii, ord. rewrite byte_of_ascii_of_byte. reflexivity. Qed.

Lemma decode_ascii_ok (b : bytes) (p : str) :
  decode_ascii b = Ok p -> forallb is_ascii p = true /\ length p = length b.
Proof.
  unfold decode_ascii. destruct (forallb _ b) eqn:H; [|discriminate].
  intros [= <-]. split; [|apply length_map].
  rewrite forallb_map'. rewrite <- H. clear H.
  induction b as [|x b IH]; [reflexivity|].
  cbn [forallb]. rewrite IH, is_ascii_of_byte. reflexivity.
Qed.

Lemma parse_name_labels (fuel : nat) (data : bytes) (offset : nat) (acc parts : list str)
    (offset' : nat) :
  parse_name fuel data offset acc = Ok (parts, offset') ->
  Forall label_ok acc -> Forall label_ok parts.
Proof.
  revert offset acc. induction fuel as [|fuel IH]; intros offset acc H Hacc; [discriminate|].
  cbn [parse_name] in H. destruct (data !! offset) as [b|]; [|discriminate].
  destruct (byteZ b =? 0); [injection H as <- _; exact Hacc|].
  destruct (Z.land (byteZ b) 192 =? 192) eqn:Hptr.
  - destruct (unpack_H _); [|discriminate]. cbn [rbind] in H.
    injection H as <- _. exact Hacc.
  - destruct (decode_ascii _) as [part|e] eqn:Hd; [|discriminate]. cbn [rbind] in H.
    apply IH in H; [exact H|]. apply Forall_app_2; [exact Hacc|].
    apply Forall_cons_2; [|apply Forall_nil_2].
    apply decode_ascii_ok in Hd. destruct Hd as [Ha Hl]. split; [exact Ha|].
    rewrite Hl. unfold slice. rewrite length_firstn.
    pose proof (label_length_bound b Hptr). pose proof (byteZ_range b). lia.
Qed.

Lemma parse_questions_ok (n : nat) (data : bytes) (offset : nat) (qs : list question) :
  parse_questions n data offset = Ok qs ->
  Forall question_ok qs /\ length qs = n.
Proof.
  revert offset qs. induction n as [|n IH]; intros offset qs H.
  - injection H as <-. split; [apply Forall_nil_2|reflexivity].
  - cbn [parse_questions] in H.
    destruct (parse_name _ data offset []) as [[parts off]|e] eqn:Hn; [|discriminate].
    cbn [rbind] in H.
    destruct (unpack_H (slice off (off + 2) data)) as [qt|e] eqn:Ht; [|discriminate].
    cbn [rbind] in H.
    destruct (unpack_H (slice (off + 2) (off + 4) data)) as [qc|e] eqn:Hc; [|discriminate].
    cbn [rbind] in H.
    destruct (parse_questions n data (off + 4)) as [rest|e] eqn:Hr; [|discriminate].
    cbn [rbind] in H. injection H as <-.
    apply IH in Hr. destruct Hr as [Hok Hlen]. split; [|cbn [length]; lia].
    apply Forall_cons_2; [|exact Hok]. unfold question_ok.
    split; [|split; eapply unpack_H_range; eassumption].
    exists parts. split; [reflexivity|].
    eapply parse_name_labels; [exact Hn|apply Forall_nil_2].
Qed.

Lemma parse_dns_query_ok (data : bytes) (tx : Z) (qs : list question) :
  parse_dns_query data = Ok (tx, qs) ->
  0 <= tx < 65536 /\ Forall question_ok qs /\ 0 <= len qs < 65536.
Proof.
  unfold parse_dns_query.
  destruct (unpack_H (slice 0 2 data)) as [t|e] eqn:Ht; [|discriminate]. cbn [rbind].
  destruct (unpack_H (slice 2 4 data)) as [f|e] eqn:Hf; [|discriminate]. cbn [rbind].
  destruct (unpack_H (slice 4 6 data)) as [n|e] eqn:Hn; [|discriminate]. cbn [rbind].
  destruct (parse_questions _ data 12) as [q|e] eqn:Hq; [|discriminate]. cbn [rbind].
  intros [= <- <-]. apply parse_questions_ok in Hq. destruct Hq as [Hok Hlen].
  apply unpack_H_range in Ht, Hn. unfold len.
  split; [lia|]. split; [exact Hok|]. lia.
Qed.

Lemma split_on_app_sep (c : ascii) (p r : str) :
  split_on c (p ++ c :: r) = split_on c p ++ split_on c r.
Proof.
  induction p as [|x p IH].
  - cbn [app split_on]. rewrite Ascii.eqb_refl. reflexivity.
  - cbn [app split_on]. destruct (Ascii.eqb x c); rewrite IH; [reflexivity|].
    destruct (split_on c p) as [|y ys] eqn:Hs; [|reflexivity].
    destruct p as [|z p]; [discriminate|]. cbn [split_on] in Hs.
    destruct (Ascii.eqb z c); [discriminate|]. destruct (split_on c p); discriminate.
Qed.

Lemma split_on_pieces (c : ascii) (p x : str) :
  In x (split_on c p) ->
  (length x <= length p)%nat /\ forall ch, In ch x -> In ch p.
Proof.
  revert x. induction p as [|y p IH]; intros x Hx.
  - destruct Hx as [<-|[]]. split; [lia|tauto].
  - cbn [split_on] in Hx. destruct (Ascii.eqb y c).
    + destruct Hx as [<-|Hx]; [split; [cbn; lia|intros ch []]|].
      destruct (IH x Hx) as [Hl Hin]. split; [cbn [length]; lia|].
      intros ch Hch. right. auto.
    + destruct (split_on c p) as [|z zs] eqn:Hs.
      * destruct Hx as [<-|[]]. split; [cbn; lia|]. intros ch [<-|[]]. left. reflexivity.
      * destruct Hx as [<-|Hx].
        -- destruct (IH z (or_introl eq_refl)) as [Hl Hin]. split; [cbn [length]; lia|].
           intros ch [<-|Hch]; [left; reflexivity|right; auto].
        -- destruct (IH x (or_intror Hx)) as [Hl Hin]. split; [cbn [length]; lia|].
           intros ch Hch. right. auto.
Qed.

Lemma encode_labels_ok (ps : list str) :
  Forall (fun p => forallb is_ascii p = true /\ (length p < 256)%nat) ps ->
  exists bs, encode_labels ps = Ok bs.
Proof.
  induction 1 as [|p ps [Ha Hl] _ [bs IH]]; [eexists; reflexivity|].
  cbn [encode_labels]. destruct p as [|ch p]; [eauto|].
  unfold pack_B, encode_ascii. rewrite Ha.
  replace ((0 <=? len (ch :: p)) && (len (ch :: p) <? 256)) with true
    by (symmetry; unfold len; apply andb_true_iff; split; [apply Z.leb_le|apply Z.ltb_lt]; lia).
  cbn [rbind]. rewrite IH. cbn [rbind]. eauto.
Qed.

Lemma label_ok_pieces (p x : str) :
  label_ok p -> In x (split_on "."%char p) ->
  forallb is_ascii x = true /\ (length x < 256)%nat.
Proof.
  intros [Ha Hl] Hx. apply split_on_pieces in Hx. destruct Hx as [Hlen Hin]. split; [|lia].
  rewrite forallb_forall in Ha. apply forallb_forall. auto.
Qed.

Lemma split_join_pieces (parts : list str) (x : str) :
  Forall label_ok parts -> In x (split_on "."%char (join "."%char parts)) ->
  forallb is_ascii x = true /\ (length x < 256)%nat.
Proof.
  induction 1 as [|p ps Hp Hps IH].
  - intros [<-|[]]. split; [reflexivity|cbn; lia].
  - destruct ps as [|q ps].
    + cbn [join]. apply label_ok_pieces. exact Hp.
    + change (join "." (p :: q :: ps)) with (p ++ "."%char :: join "." (q :: ps)).
      rewrite split_on_app_sep. intros Hx. apply in_app_or in Hx.
      destruct Hx as [Hx|Hx]; [eapply label_ok_pieces; eassumption|auto].
Qed.

(** Every name the parser returns encodes. *)
Lemma encode_domain_parsed (parts : list str) :
  Forall label_ok parts -> exists bs, encode_domain (join "."%char parts) = Ok bs.
Proof.
  intros H. unfold encode_domain.
  destruct (encode_labels_ok (split_on "."%char (join "."%char parts))) as [bs Hbs].
  - apply Forall_forall. intros x Hx. apply list_elem_of_In in Hx.
    eapply split_join_pieces; eassumption.
  - rewrite Hbs. cbn [rbind]. eauto.
Qed.

Lemma pack_H_ok (z : Z) : 0 <= z < 65536 -> pack_H z = Ok (to_bytes 2 z).
Proof.
  intros H. unfold pack_H.
  replace ((0 <=? z) && (z <? 65536)) with true; [reflexivity|].
  symmetry. apply andb_true_iff. split; [apply Z.leb_le|apply Z.ltb_lt]; lia.
Qed.

Lemma pack_I_ok (z : Z) : 0 <= z < 4294967296 -> pack_I z = Ok (to_bytes 4 z).
Proof.
  intros H. unfold pack_I.
  replace ((0 <=? z) && (z <? 4294967296)) with true; [reflexivity|].
  symmetry. apply andb_true_iff. split; [apply Z.leb_le|apply Z.ltb_lt]; lia.
Qed.

Lemma encode_question_ok (q : question) :
  question_ok q -> exists bs, encode_question q = Ok bs.
Proof.
  destruct q as [[name qt] qc]. intros [(parts & -> & Hp) [Ht Hc]].
  unfold encode_question. destruct (encode_domain_parsed parts Hp) as [bs Hbs].
  rewrite Hbs, !pack_H_ok by assumption. cbn [rbind]. eauto.
Qed.

Lemma encode_questions_ok (qs : list question) :
  Forall question_ok qs -> exists bss, mapR encode_question qs = Ok bss.
Proof.
  induction 1 as [|q qs Hq _ [bss IH]]; [eexists; reflexivity|].
  cbn [mapR]. destruct (encode_question_ok q Hq) as [bs Hbs].
  rewrite Hbs, IH. cbn [rbind]. eauto.
Qed.

Lemma pack_header_ok (tx flags qd an : Z) :
  0 <= tx < 65536 -> 0 <= flags < 65536 -> 0 <= qd < 65536 -> 0 <= an < 65536 ->
  pack_header tx flags qd an =
  Ok (to_bytes 2 tx ++ to_bytes 2 flags ++ to_bytes 2 qd ++ to_bytes 2 an ++ [x00; x00; x00; x00]).
Proof. intros. unfold pack_header. rewrite !pack_H_ok by assumption. reflexivity. Qed.

(** ** Processing a datagram *)

Lemma to_bytes2_pair (a b : byte) : to_bytes 2 (byteZ a * 256 + byteZ b) = [a; b].
Proof.
  cbn [to_bytes]. pose proof (byteZ_range a). pose proof (byteZ_range b).
  rewrite !Z.shiftr_div_pow2 by lia.
  repeat (apply (f_equal2 cons)); try reflexivity; apply Z_to_byte_mod.
  all: cbn [Z.mul Z.of_nat Pos.of_succ_nat Pos.succ Pos.mul]; pow2_consts.
  all: Z.div_mod_to_equations; lia.
Qed.

(** SERVFAIL echoes the first two bytes of the datagram. *)
Lemma build_servfail_response_ok (a b : byte) (rest : bytes) :
  build_servfail_response (firstn 2 (a :: b :: rest)) = Ok (servfail_bytes a b).
Proof.
  change (firstn 2 (a :: b :: rest)) with [a; b].
  unfold build_servfail_response. cbn [unpack_H rbind].
  pose proof (byteZ_range a). pose proof (byteZ_range b).
  rewrite pack_header_ok by lia. rewrite to_bytes2_pair. reflexivity.
Qed.

Section Processing.

Context {W : Type}.
Variable ext : Externals W.
Variable cfg : Config.

Lemma process_query_eq (data : bytes) (now : Z) (s : Sys W) :
  process_query ext cfg data now s =
  match parse_dns_query data with
  | Raise e => (build_servfail_response (firstn 2 data), s)
  | Ok (tx, qs) =>
      match answer_questions ext cfg qs tx now [] s with
      | (Raise e, s') => (build_servfail_response (firstn 2 data), s')
      | (Ok [], s') => (or_servfail data (build_nxdomain_response tx qs), s')
      | (Ok answers, s') => (or_servfail data (build_dns_response tx qs answers), s')
      end
  end.
Proof.
  unfold process_query, try_except, bind, lift.
  destruct (parse_dns_query data) as [[tx qs]|e]; [|reflexivity].
  destruct (answer_questions ext cfg qs tx now [] s) as [[answers|e] s']; [|reflexivity].
  destruct answers as [|a answers].
  - destruct (build_nxdomain_response tx qs); reflexivity.
  - destruct (build_dns_response tx qs (a :: answers)); reflexivity.
Qed.

(** Each question adds answers behind the ones already there, and an
    IN-class A question adds the record with the configured address. *)
Lemma answer_question_appends (q : question) (tx now : Z) (acc acc' : list answer) (s s' : Sys W) :
  answer_question ext cfg q tx now acc s = (Ok acc', s') ->
  exists new, acc' = acc ++ new /\
    forall qname, q = (qname, DNSType_A, DNSClass_IN) ->
      exists ip, ip_bytes ext cfg = Ok ip /\
                 new = [(qname, DNSType_A, DNSClass_IN, ttl cfg, ip)] /\ s' = s.
Proof.
  destruct q as [[qname qtype] qclass]. unfold answer_question.
  destruct (qclass =? DNSClass_IN) eqn:Hc; cbn [negb].
  2:{ intros [= <- <-]. exists []. split; [symmetry; apply app_nil_r|].
      intros ? [= _ _ ->]. discriminate. }
  destruct (qtype =? DNSType_A) eqn:Ha.
  { unfold bind, lift, ret. destruct (ip_bytes ext cfg) as [ip|e]; [|discriminate].
    intros [= <- <-]. eexists. split; [reflexivity|].
    intros ? [= <- _ _]. eauto. }
  assert (Hno : forall x : str, (qname, qtype, qclass) = (x, DNSType_A, DNSClass_IN) -> False).
  { intros x [= _ -> _]. discriminate. }
  destruct (qtype =? DNSType_TXT).
  { unfold bind, ret.
    destruct (handle_agent_query ext cfg qname qtype tx now s) as [[[[|b d]|]|e] s1];
      intros [= <- <-]; eexists; (split; [try reflexivity; symmetry; apply app_nil_r|]);
      intros x Hx; destruct (Hno x Hx). }
  destruct (qtype =? DNSType_NS).
  { unfold bind, lift, ret. destruct (mapR encode_domain (ns_records cfg)); [|discriminate].
    intros [= <- <-]. eexists. split; [reflexivity|]. intros x Hx; destruct (Hno x Hx). }
  destruct (qtype =? DNSType_SOA).
  { unfold bind, lift, ret. destruct (build_soa_record cfg now); [|discriminate].
    intros [= <- <-]. eexists. split; [reflexivity|]. intros x Hx; destruct (Hno x Hx). }
  intros [= <- <-]. exists []. split; [symmetry; apply app_nil_r|].
  intros x Hx; destruct (Hno x Hx).
Qed.

Lemma answer_questions_appends (qs : list question) (tx now : Z) (acc acc' : list answer)
    (s s' : Sys W) :
  answer_questions ext cfg qs tx now acc s = (Ok acc', s') ->
  exists new, acc' = acc ++ new /\
    forall qname, In (qname, DNSType_A, DNSClass_IN) qs ->
      exists ip, ip_bytes ext cfg = Ok ip /\
                 In (qname, DNSType_A, DNSClass_IN, ttl cfg, ip) new.
Proof.
  revert acc s. induction qs as [|q qs IH]; intros acc s H.
  - injection H as <- <-. exists []. split; [symmetry; apply app_nil_r|]. intros ? [].
  - cbn [answer_questions] in H. unfold bind in H.
    destruct (answer_question ext cfg q tx now acc s) as [[acc1|e] s1] eqn:Hq; [|discriminate].
    apply answer_question_appends in Hq. destruct Hq as (new1 & -> & H1).
    apply IH in H. destruct H as (new2 & -> & H2).
    exists (new1 ++ new2). split; [symmetry; apply app_assoc|].
    intros qname [->|Hin].
    + destruct (H1 qname eq_refl) as (ip & Hip & -> & _). exists ip. split; [exact Hip|].
      left. reflexivity.
    + destruct (H2 qname Hin) as (ip & Hip & Hin'). exists ip. split; [exact Hip|].
      apply in_or_app. right. exact Hin'.
Qed.

Lemma ip_bytes_length (ip : bytes) : ip_bytes ext cfg = Ok ip -> length ip = 4%nat.
Proof.
  unfold ip_bytes. destruct (mapR _ _) as [nums|e]; [|discriminate]. cbn [rbind].
  destruct nums as [|a [|b [|c [|d [|x nums]]]]]; try discriminate.
  unfold pack_B.
  destruct ((0 <=? a) && (a <? 256)); [|discriminate]. cbn [rbind].
  destruct ((0 <=? b) && (b <? 256)); [|discriminate]. cbn [rbind].
  destruct ((0 <=? c) && (c <? 256)); [|discriminate]. cbn [rbind].
  destruct ((0 <=? d) && (d <? 256)); [|discriminate]. cbn [rbind].
  intros [= <-]. reflexivity.
Qed.

Lemma ip_bytes_of (a b c d : Z) :
  mapR (py_int ext) (split_on "."%char (response_ip cfg)) = Ok [a; b; c; d] ->
  0 <= a < 256 -> 0 <= b < 256 -> 0 <= c < 256 -> 0 <= d < 256 ->
  ip_bytes ext cfg = Ok [Z_to_byte a; Z_to_byte b; Z_to_byte c; Z_to_byte d].
Proof.
  intros H Ha Hb Hc Hd. unfold ip_bytes. rewrite H. cbn [rbind]. unfold pack_B.
  replace ((0 <=? a) && (a <? 256)) with true
    by (symmetry; apply andb_true_iff; split; [apply Z.leb_le|apply Z.ltb_lt]; lia).
  replace ((0 <=? b) && (b <? 256)) with true
    by (symmetry; apply andb_true_iff; split; [apply Z.leb_le|apply Z.ltb_lt]; lia).
  replace ((0 <=? c) && (c <? 256)) with true
    by (symmetry; apply andb_true_iff; split; [apply Z.leb_le|apply Z.ltb_lt]; lia).
  replace ((0 <=? d) && (d <? 256)) with true
    by (symmetry; apply andb_true_iff; split; [apply Z.leb_le|apply Z.ltb_lt]; lia).
  cbn [rbind to_bytes app Z.of_nat Z.mul]. rewrite !Z.shiftr_0_r. reflexivity.
Qed.

(** The SERVFAIL response to a datagram that parsed carries its
    transaction id. *)
Lemma servfail_of_parsed (data : bytes) (tx : Z) (qs : list question) :
  parse_dns_query data = Ok (tx, qs) ->
  build_servfail_response (firstn 2 data) =
  Ok (to_bytes 2 tx ++ to_bytes 2 33154 ++ to_bytes 2 0 ++ to_bytes 2 0 ++
      [x00; x00; x00; x00]).
Proof.
  intros Hp. pose proof (parse_dns_query_ok data tx qs Hp) as (Htx & _ & _).
  unfold parse_dns_query in Hp.
  destruct (unpack_H (slice 0 2 data)) as [t|e] eqn:Ht; [|discriminate]. cbn [rbind] in Hp.
  destruct (unpack_H (slice 2 4 data)) as [f|e]; [|discriminate]. cbn [rbind] in Hp.
  destruct (unpack_H (slice 4 6 data)) as [n|e]; [|discriminate]. cbn [rbind] in Hp.
  destruct (parse_questions _ data 12) as [q|e]; [|discriminate]. cbn [rbind] in Hp.
  injection Hp as -> _.
  unfold build_servfail_response. change (firstn 2 data) with (slice 0 2 data).
  rewrite Ht. cbn [rbind]. apply pack_header_ok; lia.
Qed.

(** A question that is not of class IN, or of a type other than A, TXT,
    NS and SOA, or a TXT question for a name outside the base domain, adds
    no answer. *)
Lemma answer_question_silent (qname : str) (qtype qclass tx now : Z) (acc : list answer)
    (s : Sys W) :
  qclass <> DNSClass_IN \/
  (qtype <> DNSType_A /\ qtype <> DNSType_TXT /\ qtype <> DNSType_NS /\ qtype <> DNSType_SOA) \/
  (qtype = DNSType_TXT /\ endswith qname (lit "." ++ domain cfg) = false) ->
  answer_question ext cfg (qname, qtype, qclass) tx now acc s = (Ok acc, s).
Proof.
  intros H. unfold answer_question.
  destruct (qclass =? DNSClass_IN) eqn:Hc; cbn [negb]; [|reflexivity].
  apply Z.eqb_eq in Hc. destruct H as [H|[(Ha & Ht & Hn & Hs)|[-> He]]]; [congruence| |].
  - rewrite !(proj2 (Z.eqb_neq _ _)) by assumption. reflexivity.
  - cbn [Z.eqb DNSType_TXT DNSType_A Pos.eqb]. unfold bind, handle_agent_query.
    rewrite He. reflexivity.
Qed.

(** C9 (as amended) — a query whose one question is of type A and class
    IN is answered, whatever the name, with a success response (flags
    0x8180, one answer) carrying one A record with the four numbers of the
    configured [response_ip].  In a query with several questions every
    IN-class A question contributes that record whenever the loop over the
    questions completes, and a raise while another question is answered
    turns the whole response into SERVFAIL with the query's id.  A sole
    question gets NXDOMAIN with no answer not only when it is a TXT
    question for a foreign name but also when its class is not IN or its
    type is none of A, TXT, NS, SOA. *)
Theorem a_record_answers (data : bytes) (now : Z) (s : Sys W) (tx : Z)
    (qs : list question) (qname : str) (a b c d : Z) :
  parse_dns_query data = Ok (tx, qs) ->
  0 <= ttl cfg < 4294967296 ->
  mapR (py_int ext) (split_on "."%char (response_ip cfg)) = Ok [a; b; c; d] ->
  0 <= a < 256 -> 0 <= b < 256 -> 0 <= c < 256 -> 0 <= d < 256 ->
  let ip := [Z_to_byte a; Z_to_byte b; Z_to_byte c; Z_to_byte d] in
  (qs = [(qname, DNSType_A, DNSClass_IN)] ->
     exists name,
       encode_domain qname = Ok name /\
       process_query ext cfg data now s =
         (Ok (to_bytes 2 tx ++ to_bytes 2 33152 ++ to_bytes 2 1 ++ to_bytes 2 1 ++
              [x00; x00; x00; x00] ++
              (name ++ to_bytes 2 DNSType_A ++ to_bytes 2 DNSClass_IN) ++
              [xc0; x0c] ++ to_bytes 2 DNSType_A ++ to_bytes 2 DNSClass_IN ++
              to_bytes 4 (ttl cfg) ++ to_bytes 2 4 ++ ip), s)) /\
  (In (qname, DNSType_A, DNSClass_IN) qs ->
     (forall answers s',
        answer_questions ext cfg qs tx now [] s = (Ok answers, s') ->
        In (qname, DNSType_A, DNSClass_IN, ttl cfg, ip) answers /\
        process_query ext cfg data now s =
          (or_servfail data (build_dns_response tx qs answers), s')) /\
     (forall e s',
        answer_questions ext cfg qs tx now [] s = (Raise e, s') ->
        process_query ext cfg data now s =
          (Ok (to_bytes 2 tx ++ to_bytes 2 33154 ++ to_bytes 2 0 ++ to_bytes 2 0 ++
               [x00; x00; x00; x00]), s'))) /\
  (forall qtype qclass,
     qs = [(qname, qtype, qclass)] ->
     qclass <> DNSClass_IN \/
     (qtype <> DNSType_A /\ qtype <> DNSType_TXT /\ qtype <> DNSType_NS /\
      qtype <> DNSType_SOA) \/
     (qtype = DNSType_TXT /\ endswith qname (lit "." ++ domain cfg) = false) ->
     exists name,
       encode_domain qname = Ok name /\
       process_query ext cfg data now s =
         (Ok (to_bytes 2 tx ++ to_bytes 2 33155 ++ to_bytes 2 1 ++ to_bytes 2 0 ++
              [x00; x00; x00; x00] ++
              (name ++ to_bytes 2 qtype ++ to_bytes 2 qclass)), s)).
Proof.
  intros Hp Httl Hnums Ha Hb Hc Hd ip.
  pose proof (ip_bytes_of a b c d Hnums Ha Hb Hc Hd) as Hip. fold ip in Hip.
  pose proof (parse_dns_query_ok data tx qs Hp) as (Htx & Hqs & Hlen).
  split; [|split].
  - intros ->.
    apply Forall_cons in Hqs. destruct Hqs as [[(parts & -> & Hparts) _] _].
    destruct (encode_domain_parsed parts Hparts) as [name Hname].
    exists name. split; [exact Hname|].
    rewrite process_query_eq, Hp. cbn [answer_questions answer_question].
    unfold bind, lift, ret. cbn [Z.eqb DNSClass_IN DNSType_A Pos.eqb negb]. rewrite Hip.
    cbn [app]. unfold build_dns_response.
    rewrite pack_header_ok by (unfold len; cbn [length]; lia). cbn [rbind mapR].
    unfold encode_question, encode_answer. rewrite Hname.
    rewrite !pack_H_ok by (unfold DNSType_A, DNSClass_IN, len, ip; cbn [length]; lia).
    rewrite pack_I_ok by exact Httl. cbn [rbind concat or_servfail].
    unfold len, ip. cbn [length Z.of_nat Pos.of_succ_nat Pos.succ].
    rewrite !app_nil_r. reflexivity.
  - intros Hin. split.
    + intros answers s' Hans. pose proof Hans as Hans'.
      apply answer_questions_appends in Hans'. destruct Hans' as (new & -> & Hnew).
      destruct (Hnew qname Hin) as (ip' & Hip' & Hin').
      assert (ip' = ip) by congruence. subst ip'. split; [exact Hin'|].
      rewrite process_query_eq, Hp, Hans. cbn [app]. destruct new; [destruct Hin'|reflexivity].
    + intros e s' Hans. rewrite process_query_eq, Hp, Hans.
      rewrite (servfail_of_parsed data tx qs Hp). reflexivity.
  - intros qtype qclass -> Hsilent.
    apply Forall_cons in Hqs. destruct Hqs as [[(parts & -> & Hparts) [Hqt Hqc]] _].
    destruct (encode_domain_parsed parts Hparts) as [name Hname].
    exists name. split; [exact Hname|].
    rewrite process_query_eq, Hp. cbn [answer_questions]. unfold bind.
    rewrite (answer_question_silent _ qtype qclass tx now [] s Hsilent). cbn [ret].
    unfold build_nxdomain_response.
    rewrite pack_header_ok by (unfold len; cbn [length]; lia). cbn [rbind mapR].
    unfold encode_question. rewrite Hname.
    rewrite !pack_H_ok by assumption.
    cbn [rbind concat or_servfail]. rewrite !app_nil_r. reflexivity.
Qed.

(** A datagram of two bytes or more always gets a response: the query's
    answer, or SERVFAIL with the first two bytes echoed. *)
Lemma process_query_answers (a b : byte) (rest : bytes) (now : Z) (s : Sys W) :
  exists response,
    fst (process_query ext cfg (a :: b :: rest) now s) = Ok response /\
    (forall e, parse_dns_query (a :: b :: rest) = Raise e -> response = servfail_bytes a b).
Proof.
  rewrite process_query_eq.
  destruct (parse_dns_query (a :: b :: rest)) as [[tx qs]|e].
  - destruct (answer_questions ext cfg qs tx now [] s) as [[[|x answers]|e] s'].
    + destruct (build_nxdomain_response tx qs) as [r|e]; cbn [or_servfail fst].
      * exists r. split; [reflexivity|discriminate].
      * rewrite build_servfail_response_ok. eexists. split; [reflexivity|discriminate].
    + destruct (build_dns_response tx qs (x :: answers)) as [r|e]; cbn [or_servfail fst].
      * exists r. split; [reflexivity|discriminate].
      * rewrite build_servfail_response_ok. eexists. split; [reflexivity|discriminate].
    + cbn [fst]. rewrite build_servfail_response_ok. eexists. split; [reflexivity|discriminate].
  - cbn [fst]. rewrite build_servfail_response_ok. eexists. split; [reflexivity|reflexivity].
Qed.

End Processing.

Lemma a_record_answers_witness :
  let query := query_bytes 4660 [lit "foobar"; lit "other"; lit "org"] DNSType_A DNSClass_IN in
  parse_dns_query query = Ok (4660, [(lit "foobar.other.org", DNSType_A, DNSClass_IN)]) /\
  mapR sim_int (split_on "."%char (response_ip default_config)) = Ok [127; 0; 0; 1] /\
  exists name,
    process_query (sim_externals []) default_config query 0 (start []) =
      (Ok (to_bytes 2 4660 ++ to_bytes 2 33152 ++ to_bytes 2 1 ++ to_bytes 2 1 ++
           [x00; x00; x00; x00] ++
           (name ++ to_bytes 2 DNSType_A ++ to_bytes 2 DNSClass_IN) ++
           [xc0; x0c] ++ to_bytes 2 DNSType_A ++ to_bytes 2 DNSClass_IN ++
           to_bytes 4 300 ++ to_bytes 2 4 ++ [x7f; x00; x00; x01]), start []).
Proof.
  cbv zeta. split; [vm_compute; reflexivity|]. split; [vm_compute; reflexivity|].
  destruct (proj1 (a_record_answers (sim_externals []) default_config
    (query_bytes 4660 [lit "foobar"; lit "other"; lit "org"] DNSType_A DNSClass_IN)
    0 (start []) 4660 [(lit "foobar.other.org", DNSType_A, DNSClass_IN)] (lit "foobar.other.org")
    127 0 0 1
    ltac:(vm_compute; reflexivity) ltac:(vm_compute; split; congruence)
    ltac:(vm_compute; reflexivity) ltac:(lia) ltac:(lia) ltac:(lia) ltac:(lia))
    eq_refl) as (name & _ & H).
  exists name. exact H.
Defined.

(** C9, as the claim states it, fails twice.  A query that contains an
    IN-class A question together with an SOA question, on a listener
    without name servers, is answered SERVFAIL and not with an A record;
    and a sole AAAA question is answered NXDOMAIN, so that response is not
    reserved to TXT questions. *)
Lemma a_record_claim_counterexample :
  parse_dns_query a_soa_query =
    Ok (4660, [(lit "www.example.org", DNSType_A, DNSClass_IN);
               (lit "c2.test", DNSType_SOA, DNSClass_IN)]) /\
  fst (process_query (sim_externals []) c2_no_ns a_soa_query 0 (start [])) =
    Ok (servfail_bytes x12 x34) /\
  parse_dns_query
    (query_bytes 4660 [lit "www"; lit "example"; lit "org"] DNSType_AAAA DNSClass_IN) =
    Ok (4660, [(lit "www.example.org", DNSType_AAAA, DNSClass_IN)]) /\
  fst (process_query (sim_externals []) c2_test
         (query_bytes 4660 [lit "www"; lit "example"; lit "org"] DNSType_AAAA DNSClass_IN)
         0 (start [])) =
    Ok (to_bytes 2 4660 ++ to_bytes 2 33155 ++ to_bytes 2 1 ++ to_bytes 2 0 ++
        [x00; x00; x00; x00] ++
        question_bytes [lit "www"; lit "example"; lit "org"] DNSType_AAAA DNSClass_IN).
Proof. repeat split; vm_compute; reflexivity. Qed.

(** * Further properties of the listener *)

(** ** The parser *)

(** The name loop cannot run out of fuel before it runs off the end of
    the datagram: any two amounts of fuel that exceed the bytes left give
    the same result. *)
Theorem parse_name_fuel (data : bytes) (fuel1 fuel2 offset : nat) (acc : list str) :
  (length data < fuel1 + offset)%nat -> (length data < fuel2 + offset)%nat ->
  parse_name fuel1 data offset acc = parse_name fuel2 data offset acc.
Proof.
  revert fuel2 offset acc. induction fuel1 as [|fuel1 IH]; intros fuel2 offset acc H1 H2.
  - destruct fuel2 as [|fuel2]; [reflexivity|]. cbn [parse_name].
    rewrite lookup_ge_None_2 by lia. reflexivity.
  - destruct fuel2 as [|fuel2].
    + cbn [parse_name]. rewrite lookup_ge_None_2 by lia. reflexivity.
    + cbn [parse_name]. destruct (data !! offset) as [b|]; [|reflexivity].
      destruct (byteZ b =? 0) eqn:Hz; [reflexivity|].
      destruct (Z.land (byteZ b) 192 =? 192); [reflexivity|].
      destruct (decode_ascii _); [|reflexivity]. cbn [rbind].
      pose proof (byteZ_range b). apply Z.eqb_neq in Hz.
      apply IH; lia.
Qed.

Lemma parse_name_fuel_witness :
  parse_name 9 [x03; "w"%byte; "w"%byte; "w"%byte; x00] 0 [] =
  parse_name 6 [x03; "w"%byte; "w"%byte; "w"%byte; x00] 0 [].
Proof.
  apply (parse_name_fuel [x03; "w"%byte; "w"%byte; "w"%byte; x00] 9 6 0 []);
    vm_compute; lia.
Defined.

(** What [parse_dns_query] returns is in range: a 16-bit transaction id,
    fewer than 65536 questions, 16-bit types and classes, and names made of
    ASCII labels shorter than 192 characters. *)
Theorem parse_dns_query_bounds (data : bytes) (tx : Z) (qs : list question) :
  parse_dns_query data = Ok (tx, qs) ->
  0 <= tx < 65536 /\ Forall question_ok qs /\ 0 <= len qs < 65536.
Proof. apply parse_dns_query_ok. Qed.

Lemma parse_dns_query_bounds_witness :
  let query := query_bytes 4660 [lit "foobar"; lit "c2"; lit "test"] DNSType_TXT DNSClass_IN in
  parse_dns_query query = Ok (4660, [(lit "foobar.c2.test", DNSType_TXT, DNSClass_IN)]) /\
  0 <= 4660 < 65536.
Proof.
  cbv zeta. split; [vm_compute; reflexivity|].
  exact (proj1 (parse_dns_query_bounds
    (query_bytes 4660 [lit "foobar"; lit "c2"; lit "test"] DNSType_TXT DNSClass_IN)
    4660 [(lit "foobar.c2.test", DNSType_TXT, DNSClass_IN)] ltac:(vm_compute; reflexivity))).
Defined.

(** The questions of a parsed query can always be written back: the
    NXDOMAIN response is built without a raise, with flags 0x8183, the
    question count of the query and no answers. *)
Theorem nxdomain_response_built (data : bytes) (tx : Z) (qs : list question) :
  parse_dns_query data = Ok (tx, qs) ->
  exists question_data,
    mapR encode_question qs = Ok question_data /\
    build_nxdomain_response tx qs =
      Ok (to_bytes 2 tx ++ to_bytes 2 33155 ++ to_bytes 2 (len qs) ++ to_bytes 2 0 ++
          [x00; x00; x00; x00] ++ concat question_data).
Proof.
  intros Hp. apply parse_dns_query_ok in Hp. destruct Hp as (Htx & Hqs & Hlen).
  destruct (encode_questions_ok qs Hqs) as [qd Hqd]. exists qd. split; [exact Hqd|].
  unfold build_nxdomain_response. rewrite pack_header_ok by lia. cbn [rbind].
  rewrite Hqd. cbn [rbind]. rewrite <- !app_assoc. reflexivity.
Qed.

Lemma nxdomain_response_built_witness :
  let query := query_bytes 4660 [lit "foobar"; lit "c2"; lit "test"] DNSType_TXT DNSClass_IN in
  parse_dns_query query = Ok (4660, [(lit "foobar.c2.test", DNSType_TXT, DNSClass_IN)]) /\
  exists question_data,
    build_nxdomain_response 4660 [(lit "foobar.c2.test", DNSType_TXT, DNSClass_IN)] =
      Ok (to_bytes 2 4660 ++ to_bytes 2 33155 ++ to_bytes 2 1 ++ to_bytes 2 0 ++
          [x00; x00; x00; x00] ++ concat question_data).
Proof.
  cbv zeta. split; [vm_compute; reflexivity|].
  destruct (nxdomain_response_built
    (query_bytes 4660 [lit "foobar"; lit "c2"; lit "test"] DNSType_TXT DNSClass_IN)
    4660 [(lit "foobar.c2.test", DNSType_TXT, DNSClass_IN)] ltac:(vm_compute; reflexivity))
    as (qd & _ & H).
  exists qd. exact H.
Defined.

Lemma encode_labels_empty_last (ps : list str) :
  encode_labels (ps ++ [[]]) = encode_labels ps.
Proof.
  induction ps as [|p ps IH]; [reflexivity|].
  cbn [app encode_labels]. rewrite IH. reflexivity.
Qed.

(** [encode_domain] drops empty labels, so a trailing dot changes nothing. *)
Theorem encode_domain_trailing_dot (name : str) :
  encode_domain (name ++ lit ".") = encode_domain name.
Proof.
  unfold encode_domain. change (name ++ lit ".") with (name ++ "."%char :: []).
  rewrite split_on_app_sep. cbn [split_on].
  rewrite encode_labels_empty_last. reflexivity.
Qed.

(** ** Reading back what the builders write *)

Lemma byteZ_Z_to_byte (z : Z) : 0 <= z < 256 -> byteZ (Z_to_byte z) = z.
Proof.
  intros H. unfold Z_to_byte, byteZ. rewrite Z.mod_small by lia.
  destruct (Byte.of_N (Z.to_N z)) as [b|] eqn:Hb.
  - apply Byte.to_of_N in Hb. rewrite Hb. apply Z2N.id. lia.
  - apply Byte.of_N_None_iff in Hb. apply N2Z.inj_lt in Hb.
    rewrite Z2N.id in Hb by lia. change (Z.of_N 255) with 255 in Hb. lia.
Qed.

Lemma byteZ_Z_to_byte_mod (z : Z) : byteZ (Z_to_byte z) = z mod 256.
Proof.
  rewrite <- (byteZ_Z_to_byte (z mod 256)) by (apply Z.mod_pos_bound; lia).
  unfold Z_to_byte. rewrite Z.mod_mod by lia. reflexivity.
Qed.

Lemma unpack_H_to_bytes (z : Z) : 0 <= z < 65536 -> unpack_H (to_bytes 2 z) = Ok z.
Proof.
  intros H. cbn [to_bytes unpack_H]. f_equal.
  rewrite !Z.shiftr_div_pow2 by lia.
  cbn [Z.mul Z.of_nat Pos.of_succ_nat Pos.succ Pos.mul]. pow2_consts.
  rewrite !byteZ_Z_to_byte_mod.
  Z.div_mod_to_equations; lia.
Qed.

Lemma not_pointer (b : byte) : byteZ b < 192 -> (Z.land (byteZ b) 192 =? 192) = false.
Proof. destruct b; vm_compute; intros H; congruence || reflexivity. Qed.

Lemma decode_ascii_encoded (p : str) :
  forallb is_ascii p = true -> decode_ascii (map byte_of_ascii p) = Ok p.
Proof.
  intros H. unfold decode_ascii. rewrite forallb_map'.
  replace (forallb (fun x => byteZ (byte_of_ascii x) <? 128) p) with true by (symmetry; exact H).
  rewrite map_map. f_equal. rewrite <- (map_id p) at 2. apply map_ext.
  intros c. apply ascii_of_byte_of_ascii.
Qed.

Lemma split_on_clean (c : ascii) (p : str) : ~ In c p -> split_on c p = [p].
Proof.
  induction p as [|x p IH]; intros H; [reflexivity|].
  cbn [split_on]. destruct (Ascii.eqb x c) eqn:Hx.
  - apply Ascii.eqb_eq in Hx. subst. exfalso. apply H. left. reflexivity.
  - rewrite IH by (intros Hin; apply H; right; exact Hin). reflexivity.
Qed.

Lemma split_join_labels (labels : list str) :
  labels <> [] -> Forall wire_label labels ->
  split_on "."%char (join "."%char labels) = labels.
Proof.
  intros Hne H. induction H as [|p ps Hp Hps IH]; [congruence|].
  destruct Hp as (_ & _ & _ & Hdot). destruct ps as [|q ps].
  - cbn [join]. apply split_on_clean. exact Hdot.
  - change (join "." (p :: q :: ps)) with (p ++ "."%char :: join "." (q :: ps)).
    rewrite split_on_app_sep, split_on_clean by exact Hdot.
    rewrite IH by discriminate. reflexivity.
Qed.

Lemma encode_labels_wire (labels : list str) :
  Forall wire_label labels ->
  encode_labels labels = Ok (flat_map label_bytes labels).
Proof.
  induction 1 as [|p ps (Hne & Hlen & Ha & _) _ IH]; [reflexivity|].
  cbn [encode_labels flat_map]. destruct p as [|c p]; [congruence|].
  unfold pack_B, encode_ascii. rewrite Ha.
  replace ((0 <=? len (c :: p)) && (len (c :: p) <? 256)) with true
    by (symmetry; unfold len; apply andb_true_iff; split; [apply Z.leb_le|apply Z.ltb_lt]; lia).
  cbn [rbind]. rewrite IH. reflexivity.
Qed.

Lemma slice_middle {A} (pre mid post : list A) :
  slice (length pre) (length pre + length mid) (pre ++ mid ++ post) = mid.
Proof.
  unfold slice. rewrite drop_app_length.
  replace (length pre + length mid - length pre)%nat with (length mid) by lia.
  apply take_app_length.
Qed.

(** The name loop reads back the labels [encode_labels] wrote. *)
Lemma parse_name_labels_back (labels : list str) (fuel : nat) (pre post : bytes) (acc : list str) :
  Forall wire_label labels -> (length labels < fuel)%nat ->
  parse_name fuel (pre ++ flat_map label_bytes labels ++ x00 :: post) (length pre) acc =
  Ok (acc ++ labels, (length pre + length (flat_map label_bytes labels) + 1)%nat).
Proof.
  intros H. revert fuel pre acc.
  induction H as [|p ps (Hne & Hlen & Ha & Hdot) _ IH]; intros fuel pre acc Hf.
  - destruct fuel as [|fuel]; [cbn in Hf; lia|]. cbn [flat_map app parse_name].
    rewrite lookup_app_r, Nat.sub_diag by lia. cbn [lookup list_lookup].
    change (byteZ x00 =? 0) with true. cbv iota. rewrite app_nil_r.
    repeat f_equal. cbn [length]. lia.
  - destruct fuel as [|fuel]; [cbn in Hf; lia|]. cbn [length] in Hf.
    cbn [flat_map parse_name]. unfold label_bytes at 1.
    rewrite lookup_app_r, Nat.sub_diag by lia. cbn [app lookup list_lookup].
    assert (Hb : byteZ (Z_to_byte (len p)) = len p)
      by (apply byteZ_Z_to_byte; unfold len; lia).
    rewrite Hb.
    replace (len p =? 0) with false
      by (symmetry; apply Z.eqb_neq; unfold len; destruct p; [congruence|cbn [length]; lia]).
    rewrite <- Hb at 1. rewrite not_pointer by (rewrite Hb; unfold len; lia).
    replace (Z.to_nat (len p)) with (length p) by (unfold len; lia).
    set (lb := Z_to_byte (len p)). set (F := flat_map label_bytes ps).
    assert (Hs : slice (S (length pre)) (S (length pre) + length p)
                   (pre ++ (label_bytes p ++ F) ++ x00 :: post) = map byte_of_ascii p).
    { pose proof (slice_middle (pre ++ [lb]) (map byte_of_ascii p) (F ++ x00 :: post)) as Hm.
      rewrite length_app, length_map in Hm. cbn [length] in Hm.
      replace (length pre + 1)%nat with (S (length pre)) in Hm by lia.
      etransitivity; [|exact Hm]. f_equal. unfold label_bytes. fold lb.
      rewrite <- !app_assoc. reflexivity. }
    rewrite Hs, decode_ascii_encoded by exact Ha. cbn [rbind].
    replace (pre ++ (label_bytes p ++ F) ++ x00 :: post)
      with ((pre ++ label_bytes p) ++ F ++ x00 :: post)
      by (rewrite <- !app_assoc; reflexivity).
    replace (S (length pre) + length p)%nat with (length (pre ++ label_bytes p))
      by (unfold label_bytes; rewrite length_app; cbn [length]; rewrite length_map; lia).
    unfold F. rewrite IH by lia. rewrite <- app_assoc. cbn [app].
    f_equal. f_equal. rewrite !length_app. lia.
Qed.

Lemma slice_at {A} (a b : nat) (pre mid post : list A) :
  a = length pre -> b = (length pre + length mid)%nat ->
  slice a b (pre ++ mid ++ post) = mid.
Proof. intros -> ->. apply slice_middle. Qed.

Lemma labels_bytes_length (labels : list str) :
  (length labels <= length (flat_map label_bytes labels))%nat.
Proof.
  induction labels as [|p ps IH]; [reflexivity|].
  cbn [flat_map length]. rewrite length_app. unfold label_bytes at 1. cbn [length]. lia.
Qed.

Lemma encode_domain_wire (labels : list str) :
  Forall wire_label labels ->
  encode_domain (join "."%char labels) = Ok (flat_map label_bytes labels ++ [x00]).
Proof.
  intros H. unfold encode_domain. destruct labels as [|p ps]; [reflexivity|].
  rewrite split_join_labels by (discriminate || exact H).
  rewrite encode_labels_wire by exact H. reflexivity.
Qed.

(** The parser reads back the transaction id and the question of a
    response the listener built, for every name made of wire-legal labels. *)
Theorem parse_built_response (tx qtype qclass : Z) (labels : list str) :
  0 <= tx < 65536 -> 0 <= qtype < 65536 -> 0 <= qclass < 65536 ->
  Forall wire_label labels ->
  exists response,
    build_nxdomain_response tx [(join "."%char labels, qtype, qclass)] = Ok response /\
    parse_dns_query response = Ok (tx, [(join "."%char labels, qtype, qclass)]).
Proof.
  intros Htx Ht Hc Hl.
  set (F := flat_map label_bytes labels).
  set (pre := to_bytes 2 tx ++ to_bytes 2 33155 ++ to_bytes 2 1 ++ to_bytes 2 0 ++
              [x00; x00; x00; x00]).
  exists (pre ++ F ++ x00 :: to_bytes 2 qtype ++ to_bytes 2 qclass).
  split.
  - unfold build_nxdomain_response.
    rewrite pack_header_ok by (unfold len; cbn [length]; lia). cbn [rbind mapR].
    unfold encode_question. rewrite encode_domain_wire by exact Hl.
    rewrite !pack_H_ok by assumption. cbn [rbind concat]. fold F.
    unfold pre, len. cbn [length Z.of_nat Pos.of_succ_nat].
    rewrite <- !app_assoc. rewrite app_nil_r. reflexivity.
  - set (data := pre ++ F ++ x00 :: to_bytes 2 qtype ++ to_bytes 2 qclass).
    unfold parse_dns_query.
    assert (H1 : slice 0 2 data = to_bytes 2 tx) by reflexivity.
    assert (H2 : slice 2 4 data = to_bytes 2 33155) by reflexivity.
    assert (H3 : slice 4 6 data = to_bytes 2 1) by reflexivity.
    rewrite H1, H2, H3. rewrite !unpack_H_to_bytes by lia. cbn [rbind].
    change (Z.to_nat 1) with 1%nat. cbn [parse_questions].
    change 12%nat with (length pre) at 1.
    assert (Hn : parse_name (S (length data)) data (length pre) [] =
                 Ok (labels, (length pre + length F + 1)%nat)).
    { unfold data, F. apply (parse_name_labels_back labels _ pre _ []); [exact Hl|].
      pose proof (labels_bytes_length labels). rewrite !length_app. lia. }
    rewrite Hn. cbn [rbind app].
    assert (H4 : slice (length pre + length F + 1) (length pre + length F + 1 + 2) data =
                 to_bytes 2 qtype).
    { unfold data.
      replace (pre ++ F ++ x00 :: to_bytes 2 qtype ++ to_bytes 2 qclass)
        with ((pre ++ F ++ [x00]) ++ to_bytes 2 qtype ++ to_bytes 2 qclass)
        by (rewrite <- !app_assoc; reflexivity).
      apply slice_at; rewrite !length_app; cbn [length to_bytes]; lia. }
    assert (H5 : slice (length pre + length F + 1 + 2) (length pre + length F + 1 + 4) data =
                 to_bytes 2 qclass).
    { unfold data.
      replace (pre ++ F ++ x00 :: to_bytes 2 qtype ++ to_bytes 2 qclass)
        with ((pre ++ F ++ [x00] ++ to_bytes 2 qtype) ++ to_bytes 2 qclass ++ [])
        by (rewrite <- !app_assoc; cbn [app]; rewrite app_nil_r; reflexivity).
      apply slice_at; rewrite !length_app; cbn [length to_bytes]; lia. }
    rewrite H4, H5. rewrite !unpack_H_to_bytes by assumption. reflexivity.
Qed.

Lemma parse_built_response_witness :
  Forall wire_label [lit "foobar"; lit "c2"; lit "test"] /\
  exists response,
    build_nxdomain_response 4660 [(lit "foobar.c2.test", DNSType_TXT, DNSClass_IN)] = Ok response /\
    parse_dns_query response = Ok (4660, [(lit "foobar.c2.test", DNSType_TXT, DNSClass_IN)]).
Proof.
  assert (H : Forall wire_label [lit "foobar"; lit "c2"; lit "test"]).
  { repeat (apply Forall_cons_2; [|]); [..|apply Forall_nil_2].
    all: unfold wire_label; split; [discriminate|]; split; [cbn; lia|]; split; [reflexivity|].
    all: intros Hin; cbn in Hin; intuition discriminate. }
  split; [exact H|].
  apply (parse_built_response 4660 DNSType_TXT DNSClass_IN
           [lit "foobar"; lit "c2"; lit "test"]);
    [vm_compute; split; congruence..|exact H].
Defined.

(** ** What no datagram does *)

Lemma keeps_refl {W} (s : Sys W) : keeps s s.
Proof. unfold keeps. repeat split; reflexivity. Qed.

Lemma keeps_trans {W} (s1 s2 s3 : Sys W) : keeps s1 s2 -> keeps s2 s3 -> keeps s1 s3.
Proof.
  intros (A1 & B1 & C1 & D1) (A2 & B2 & C2 & D2). unfold keeps.
  split; [congruence|]. split; [congruence|]. split; set_solver.
Qed.

Section Frame.

Context {W : Type}.
Variable ext : Externals W.
Variable cfg : Config.

Lemma handle_agent_query_keeps (qname : str) (qtype tx now : Z) (s : Sys W) :
  keeps s (snd (handle_agent_query ext cfg qname qtype tx now s)).
Proof.
  destruct (handle_agent_query_listener ext cfg qname qtype tx now s) as (Hi & Hs & Hsub & Ho).
  unfold keeps. split; [exact Hs|]. split; [exact Hsub|]. split.
  - intros m Hm. apply elem_of_dom in Hm. destruct Hm as [b Hb].
    apply elem_of_dom. eapply Hi. exact Hb.
  - destruct Ho as [->|(a & d & m & c & _ & _ & ->)]; [reflexivity|].
    rewrite dom_insert_L. set_solver.
Qed.

Lemma answer_question_keeps (q : question) (tx now : Z) (acc : list answer) (s : Sys W) :
  keeps s (snd (answer_question ext cfg q tx now acc s)).
Proof.
  destruct q as [[qname qtype] qclass]. unfold answer_question.
  destruct (negb (qclass =? DNSClass_IN)); [apply keeps_refl|].
  destruct (qtype =? DNSType_A).
  { unfold bind, lift, ret. destruct (ip_bytes ext cfg); apply keeps_refl. }
  destruct (qtype =? DNSType_TXT).
  { unfold bind, ret. pose proof (handle_agent_query_keeps qname qtype tx now s) as H.
    destruct (handle_agent_query ext cfg qname qtype tx now s) as [[[[|b d]|]|e] s1]; exact H. }
  destruct (qtype =? DNSType_NS).
  { unfold bind, lift, ret. destruct (mapR encode_domain (ns_records cfg)); apply keeps_refl. }
  destruct (qtype =? DNSType_SOA).
  { unfold bind, lift, ret. destruct (build_soa_record cfg now); apply keeps_refl. }
  apply keeps_refl.
Qed.

Lemma answer_questions_keeps (qs : list question) (tx now : Z) (acc : list answer) (s : Sys W) :
  keeps s (snd (answer_questions ext cfg qs tx now acc s)).
Proof.
  revert acc s. induction qs as [|q qs IH]; intros acc s; [apply keeps_refl|].
  cbn [answer_questions]. unfold bind.
  pose proof (answer_question_keeps q tx now acc s) as H.
  destruct (answer_question ext cfg q tx now acc s) as [[acc1|e] s1]; [|exact H].
  eapply keeps_trans; [exact H|apply IH].
Qed.

Lemma process_query_keeps_state (data : bytes) (now : Z) (s : Sys W) :
  keeps s (snd (process_query ext cfg data now s)).
Proof.
  rewrite process_query_eq.
  destruct (parse_dns_query data) as [[tx qs]|e]; [|apply keeps_refl].
  pose proof (answer_questions_keeps qs tx now [] s) as H.
  destruct (answer_questions ext cfg qs tx now [] s) as [[[|a answers]|e] s1]; exact H.
Qed.

Lemma handle_datagram_eq (data : bytes) (now : Z) (s : Sys W) :
  handle_datagram ext cfg data now s =
  match process_query ext cfg data now s with
  | (Ok (b :: response), s') => (Ok (Some (b :: response)), s')
  | (_, s') => (Ok None, s')
  end.
Proof.
  unfold handle_datagram, try_except, bind, ret.
  destruct (process_query ext cfg data now s) as [[[|b r]|e] s']; reflexivity.
Qed.

Lemma serve_keeps (traffic : list (bytes * Z)) (s : Sys W) :
  keeps s (serve ext cfg traffic s).
Proof.
  revert s. induction traffic as [|[data now] traffic IH]; intros s; [apply keeps_refl|].
  cbn [serve fold_left fst snd]. eapply keeps_trans; [|apply IH].
  rewrite handle_datagram_eq. pose proof (process_query_keeps_state data now s) as H.
  destruct (process_query ext cfg data now s) as [[[|b r]|e] s']; exact H.
Qed.

(** No datagram writes [agent_sessions], reaches [submit_task_result],
    removes a reassembly buffer or removes an outgoing queue. *)
Theorem process_query_keeps (data : bytes) (now : Z) (s : Sys W) :
  keeps s (snd (process_query ext cfg data now s)).
Proof. apply process_query_keeps_state. Qed.


(** Whatever traffic a fresh listener has served, its session map is
    still empty and nothing was submitted, so a beacon is answered PONG
    without touching the database and a task query always falls back to
    the agent id in its first label. *)
Theorem sessions_stay_empty (traffic : list (bytes * Z)) (w : W)
    (parts : list str) (part0 : str) (tx now : Z) :
  let s := serve ext cfg traffic (fresh w) in
  agent_sessions (listener s) = ∅ /\
  submitted s = [] /\
  handle_beacon_query ext parts tx now s = (Ok (build_txt_response (blit "PONG")), s) /\
  resolve_agent ext (listener s) part0 tx =
    (let? raw := decode_data part0 in bytes_decode ext raw).
Proof.
  cbv zeta. destruct (serve_keeps traffic (fresh w)) as (Hs & Hsub & _).
  cbn [fresh listener submitted new_listener agent_sessions] in Hs, Hsub.
  split; [exact Hs|]. split; [exact Hsub|]. split.
  - unfold handle_beacon_query, bind, get_listener. rewrite Hs, lookup_empty. reflexivity.
  - unfold resolve_agent. rewrite Hs, lookup_empty. reflexivity.
Qed.

End Frame.

(** ** Result chunks, once more *)

Lemma build_txt_response_second (c : byte) (data : bytes) :
  exists n rest, build_txt_response (c :: data) = n :: c :: rest.
Proof.
  unfold build_txt_response, slices. cbn [length slices_fuel flat_map].
  change (firstn 255 (c :: data)) with (c :: firstn 254 data).
  cbn [app]. eauto.
Qed.

Section ResultOutcomes.

Context {W : Type}.
Variable ext : Externals W.

(** A result query is answered ERROR or CHUNK:<n> and never ACK; it
    leaves the database and the submission record alone. *)
Theorem handle_result_query_never_acks (parts : list str) (tx now : Z) (s : Sys W) :
  let r := handle_result_query ext parts tx now s in
  (fst r = Ok build_error_response \/
   exists n, fst r = Ok (build_txt_response (str_encode (lit "CHUNK:" ++ str_of_Z n)))) /\
  fst r <> Ok (build_txt_response (blit "ACK")) /\
  world (snd r) = world s /\
  submitted (snd r) = submitted s.
Proof.
  cbv zeta. rewrite handle_result_query_eq.
  destruct (parse_chunk ext parts) as [[[[mid n] t] d]|]; cbn [fst snd].
  - unfold chunk_ack, with_listener. cbn [world submitted].
    destruct (incoming_messages _ !! mid) as [b|]; [|split; [left; reflexivity|]; split; [discriminate|split; reflexivity]].
    destruct (Z.of_nat (size (chunks b)) =? t).
    + split; [left; reflexivity|]. split; [discriminate|split; reflexivity].
    + split; [right; eauto|]. split; [|split; reflexivity].
      cbn [lit list_ascii_of_string app str_encode flat_map].
      change (ord "C" <? 128) with true. cbv iota. cbn [app].
      match goal with |- context [build_txt_response (?c :: ?d)] =>
        destruct (build_txt_response_second c d) as (x & rest & ->) end.
      intros H. injection H as _ H. discriminate.
  - split; [left; reflexivity|]. split; [discriminate|split; reflexivity].
Qed.

(** A payload spread over two or more labels never decodes: the query is
    answered ERROR and nothing is stored. *)
Theorem result_payload_over_labels_rejected (message_id part1 part2 a b : str)
    (rest : list str) (tx now : Z) (s : Sys W) :
  handle_result_query ext (message_id :: part1 :: part2 :: a :: b :: rest) tx now s =
  (Ok build_error_response, s).
Proof.
  rewrite handle_result_query_eq. unfold parse_chunk.
  destruct (decode_data_dotted a b rest) as [e ->].
  destruct (py_int ext part1); [|reflexivity]. destruct (py_int ext part2); reflexivity.
Qed.

End ResultOutcomes.

(** ** The sweep *)

(** A sweep touches neither the outgoing queues nor the sessions, and a
    second sweep at the same clock reading removes nothing more. *)
Theorem cleanup_sweep_frame (now : Z) (l : Listener) :
  outgoing_messages (cleanup_sweep now l) = outgoing_messages l /\
  agent_sessions (cleanup_sweep now l) = agent_sessions l /\
  cleanup_sweep now (cleanup_sweep now l) = cleanup_sweep now l.
Proof.
  split; [reflexivity|]. split; [reflexivity|].
  assert (H : incoming_messages (cleanup_sweep now (cleanup_sweep now l)) =
              incoming_messages (cleanup_sweep now l)).
  { apply map_eq. intros k. rewrite !cleanup_sweep_lookup.
    destruct (incoming_messages l !! k) as [b|]; [|reflexivity].
    destruct (is_expired now b) eqn:He; [reflexivity|]. rewrite He. reflexivity. }
  unfold cleanup_sweep at 1. unfold cleanup_sweep at 1 in H. cbn [incoming_messages] in H.
  rewrite H. destruct (cleanup_sweep now l). reflexivity.
Qed.

(** After the sweeps of [cleanup_task] a buffer is there exactly when it
    was expired at none of the clock readings. *)
Theorem cleanup_task_lookup (wakeups : list Z) (l : Listener) (k : str) :
  incoming_messages (cleanup_task wakeups l) !! k =
  match incoming_messages l !! k with
  | Some b => if existsb (fun now => is_expired now b) wakeups then None else Some b
  | None => None
  end.
Proof.
  revert l. induction wakeups as [|now ws IH]; intros l.
  - cbn [cleanup_task fold_left existsb]. destruct (incoming_messages l !! k); reflexivity.
  - cbn [cleanup_task fold_left existsb]. fold (cleanup_task ws (cleanup_sweep now l)).
    rewrite IH, cleanup_sweep_lookup.
    destruct (incoming_messages l !! k) as [b|]; [|reflexivity].
    destruct (is_expired now b); reflexivity.
Qed.

(** ** The chunker *)

Lemma slices_fuel_length {A} (n fuel : nat) (l : list A) :
  (0 < n)%nat -> (length l <= fuel)%nat ->
  Z.of_nat (length (slices_fuel fuel n l)) = (len l + Z.of_nat n - 1) / Z.of_nat n.
Proof.
  intros Hn. revert l. induction fuel as [|fuel IH]; intros l Hl.
  - destruct l; [|cbn in Hl; lia]. cbn [slices_fuel length]. unfold len. cbn [length].
    symmetry. apply Z.div_small. lia.
  - destruct l as [|a l].
    + cbn [slices_fuel length]. unfold len. cbn [length]. symmetry. apply Z.div_small. lia.
    + cbn [slices_fuel]. cbn [length]. rewrite Nat2Z.inj_succ, IH
        by (rewrite length_skipn; cbn [length] in *; lia).
      unfold len. rewrite length_skipn.
      destruct (Nat.le_gt_cases (length (a :: l)) n) as [Hle|Hgt].
      * replace (length (a :: l) - n)%nat with 0%nat by lia.
        rewrite (Z.div_small (Z.of_nat 0 + _ - 1)) by lia.
        apply Z.div_unique with (r := Z.of_nat (length (a :: l)) - 1).
        -- cbn [length] in *. lia.
        -- lia.
      * rewrite Nat2Z.inj_sub by lia.
        replace (Z.of_nat (length (a :: l)) + Z.of_nat n - 1)
          with ((Z.of_nat (length (a :: l)) - Z.of_nat n + Z.of_nat n - 1) + 1 * Z.of_nat n) by lia.
        rewrite Z.div_add by lia. lia.
Qed.

Lemma slices_bound {A} (n : nat) (l : list A) :
  Forall (fun g => (length g <= n)%nat) (slices n l).
Proof.
  unfold slices. generalize (length l) as fuel. intros fuel. revert l.
  induction fuel as [|fuel IH]; intros l; [apply Forall_nil_2|].
  cbn [slices_fuel]. destruct l as [|a l]; [apply Forall_nil_2|].
  apply Forall_cons_2; [|apply IH]. rewrite length_firstn. lia.
Qed.

Lemma split_join_bound (c : ascii) (n : nat) (parts : list str) (x : str) :
  Forall (fun p => (length p <= n)%nat) parts ->
  In x (split_on c (join c parts)) -> (length x <= n)%nat.
Proof.
  induction 1 as [|p ps Hp Hps IH].
  - intros [<-|[]]. cbn. lia.
  - destruct ps as [|q ps].
    + cbn [join]. intros Hx. apply split_on_pieces in Hx. lia.
    + change (join c (p :: q :: ps)) with (p ++ c :: join c (q :: ps)).
      rewrite split_on_app_sep. intros Hx. apply in_app_or in Hx.
      destruct Hx as [Hx|Hx]; [apply split_on_pieces in Hx; lia|auto].
Qed.

Lemma chunk_domain_labels (message_id : str) (total : Z) (k : nat) (chunk : bytes) (x : str) :
  In x (split_on "."%char (chunk_domain message_id total k chunk)) ->
  (length x <= max_label_length)%nat.
Proof.
  unfold chunk_domain.
  match goal with |- context [(max_label_length <? length ?s)%nat] =>
    generalize s; intros name end.
  destruct (max_label_length <? length name)%nat eqn:H.
  - apply split_join_bound, slices_bound.
  - apply Nat.ltb_ge in H. intros Hx. apply split_on_pieces in Hx. lia.
Qed.

(** With a positive [chunk_size], [split_data] returns
    [ceil(len(data) / chunk_size)] names.  The name at index [k] is
    [message_id.k.<number of names>.<encode_data of the k-th slice>],
    cut into pieces of 63 characters joined by dots when it is longer than
    63; the slices are the consecutive [chunk_size]-byte pieces of [data];
    and every dot-separated label of every name is at most 63 characters
    long. *)
Theorem split_data_chunks (cfg : Config) (data : bytes) (message_id : str) :
  0 < chunk_size cfg ->
  exists chunks,
    split_data cfg data message_id = Ok chunks /\
    len chunks = (len data + chunk_size cfg - 1) / chunk_size cfg /\
    (forall k : nat,
       chunks !! k =
       (fun chunk =>
          let full := message_id ++ lit "." ++ str_of_Z (Z.of_nat k) ++ lit "." ++
                      str_of_Z (len chunks) ++ lit "." ++ encode_data chunk in
          if (63 <? length full)%nat then join "."%char (slices 63 full) else full)
       <$> (slices (Z.to_nat (chunk_size cfg)) data !! k)) /\
    concat (slices (Z.to_nat (chunk_size cfg)) data) = data /\
    Forall (fun g => (length g <= Z.to_nat (chunk_size cfg))%nat)
           (slices (Z.to_nat (chunk_size cfg)) data) /\
    Forall (fun name => Forall (fun label => (length label <= 63)%nat)
                               (split_on "."%char name)) chunks.
Proof.
  intros Hcs. unfold split_data.
  replace (chunk_size cfg =? 0) with false by (symmetry; apply Z.eqb_neq; lia).
  replace (chunk_size cfg <? 0) with false by (symmetry; apply Z.ltb_ge; lia).
  eexists. split; [reflexivity|].
  assert (Hlen : len (imap (chunk_domain message_id
                              ((len data + chunk_size cfg - 1) / chunk_size cfg))
                           (slices (Z.to_nat (chunk_size cfg)) data)) =
                 (len data + chunk_size cfg - 1) / chunk_size cfg).
  { unfold len at 1. rewrite length_imap. unfold slices.
    rewrite slices_fuel_length by lia. rewrite Z2Nat.id by lia. reflexivity. }
  split; [exact Hlen|]. split; [|split; [|split]].
  - intros k. rewrite list_lookup_imap, Hlen. reflexivity.
  - apply concat_slices. lia.
  - apply slices_bound.
  - apply Forall_forall. intros name Hname.
    apply elem_of_lookup_imap in Hname. destruct Hname as (k & chunk & -> & _).
    apply Forall_forall. intros label Hl. apply list_elem_of_In in Hl.
    apply chunk_domain_labels in Hl. exact Hl.
Qed.

Lemma split_data_chunks_witness :
  0 < chunk_size c2_test /\
  exists chunks,
    split_data c2_test (repeat x41 600) (lit "t01234567") = Ok chunks /\
    len chunks = 12 /\
    chunks !! 11%nat =
      Some (join "."%char
              (slices 63 (lit "t01234567.11.12." ++ encode_data (repeat x41 50)))).
Proof.
  split; [reflexivity|].
  destruct (split_data_chunks c2_test (repeat x41 600) (lit "t01234567") ltac:(reflexivity))
    as (chunks & H & Hlen & Hname & _).
  assert (H12 : len chunks = 12) by (rewrite Hlen; vm_compute; reflexivity).
  exists chunks. split; [exact H|]. split; [exact H12|].
  rewrite (Hname 11%nat), H12. vm_compute. reflexivity.
Defined.

(** ** Lengths and rejections of the label encoder *)

(** [encode_data] writes [ceil(8 * len(data) / 5)] characters. *)
Theorem encode_data_length (p : bytes) :
  len (encode_data p) = (8 * len p + 4) / 5.
Proof.
  destruct (split_groups 5 p) as (gs & t & -> & Hgs & Ht); [lia|].
  rewrite encode_data_struct by assumption.
  unfold len, lower. rewrite length_map, !length_app, concat_quanta_length.
  rewrite (concat_groups_length 5 gs Hgs).
  unfold tail_text. rewrite length_map. unfold tail_digits.
  destruct t as [|a [|b [|c [|d [|e t]]]]]; cbn [length] in *; try lia.
  all: Z.div_mod_to_equations; lia.
Qed.




(** ** Text records *)

(** A payload of 1 to 255 bytes is one segment, its length byte followed
    by the payload; an empty payload gives an empty record. *)
Theorem txt_single_segment (data : bytes) :
  data <> [] -> (length data <= 255)%nat ->
  build_txt_response data = Z_to_byte (len data) :: data /\
  build_txt_response [] = [].
Proof.
  intros Hne Hlen. split; [apply build_txt_response_short; assumption|reflexivity].
Qed.

Lemma txt_single_segment_witness :
  blit "NOTASK" <> [] /\ build_txt_response (blit "NOTASK") = x06 :: blit "NOTASK".
Proof.
  split; [discriminate|].
  exact (proj1 (txt_single_segment (blit "NOTASK") ltac:(discriminate) ltac:(vm_compute; lia))).
Defined.

(** ** Dispatch on the name *)

Lemma str_eqb_false (a b : str) : a <> b -> str_eqb a b = false.
Proof. intros H. unfold str_eqb. apply bool_decide_eq_false_2. exact H. Qed.

Section Dispatch.

Context {W : Type}.
Variable ext : Externals W.
Variable cfg : Config.

Lemma single_label_cut_parts (first : str) (c : ascii) :
  let qname := first ++ c :: lit "." ++ domain cfg in
  let suffix := lit "." ++ domain cfg in
  endswith qname suffix = true /\
  firstn (length qname - (length suffix + 1)) qname = first.
Proof.
  cbv zeta. set (suffix := lit "." ++ domain cfg).
  replace (first ++ c :: suffix) with ((first ++ [c]) ++ suffix)
    by (rewrite <- app_assoc; reflexivity).
  split.
  - unfold endswith. apply andb_true_iff. split.
    + rewrite length_app. replace (length (first ++ [c]) + length suffix - length suffix)%nat
        with (length (first ++ [c])) by lia.
      rewrite drop_app_length. unfold str_eqb. apply bool_decide_eq_true_2. reflexivity.
    + apply Nat.leb_le. rewrite length_app. lia.
  - rewrite !length_app. cbn [length].
    replace (length first + 1 + length suffix - (length suffix + 1))%nat
      with (length first) by lia.
    rewrite <- !app_assoc. apply take_app_length.
Qed.

Lemma single_label_dispatch (first : str) (c : ascii) (qtype tx now : Z) (s : Sys W) :
  ~ In "."%char first -> ~ In first keywords ->
  handle_agent_query ext cfg (first ++ c :: lit "." ++ domain cfg) qtype tx now s = (Ok None, s) /\
  handle_agent_query ext cfg (lit "beacon" ++ c :: lit "." ++ domain cfg) qtype tx now s =
    some (handle_beacon_query ext [] tx now) s.
Proof.
  intros Hdot Hkw. split.
  - unfold handle_agent_query.
    destruct (single_label_cut_parts first c) as [He Hf]. cbv zeta in He, Hf.
    rewrite He, Hf. cbn [negb]. destruct first as [|x first]; [reflexivity|].
    rewrite split_on_clean by exact Hdot.
    rewrite !str_eqb_false; [reflexivity|..];
      intros H; apply Hkw; rewrite H; unfold keywords; cbn [In]; tauto.
  - unfold handle_agent_query.
    destruct (single_label_cut_parts (lit "beacon") c) as [He Hf]. cbv zeta in He, Hf.
    rewrite He, Hf. reflexivity.
Qed.

(** A name with one label before the base domain is dispatched on that
    label without its last character: when what is left is none of
    checkin, task, result, beacon the query gets no answer, and the label
    [beacon] followed by any one character is handled as a beacon. *)
Theorem single_label_cut (first : str) (c : ascii) (qtype tx now : Z) (s : Sys W) :
  ~ In "."%char first -> ~ In first keywords ->
  handle_agent_query ext cfg (first ++ c :: lit "." ++ domain cfg) qtype tx now s = (Ok None, s) /\
  handle_agent_query ext cfg (lit "beacon" ++ c :: lit "." ++ domain cfg) qtype tx now s =
    some (handle_beacon_query ext [] tx now) s.
Proof. apply single_label_dispatch. Qed.

(** A name that does not end with a dot and the base domain is not handed
    to any handler, and neither is one whose part before the base domain is
    a single character. *)
Theorem foreign_name_ignored (qname : str) (c : ascii) (qtype tx now : Z) (s : Sys W) :
  endswith qname (lit "." ++ domain cfg) = false ->
  handle_agent_query ext cfg qname qtype tx now s = (Ok None, s) /\
  handle_agent_query ext cfg (c :: lit "." ++ domain cfg) qtype tx now s = (Ok None, s).
Proof.
  intros H. split.
  - unfold handle_agent_query. rewrite H. reflexivity.
  - apply (single_label_dispatch [] c qtype tx now s); [intros []|].
    unfold keywords. cbn [In]. intuition discriminate.
Qed.


(** A task query for an agent without a pending task is answered NOTASK
    and leaves the listener as it was. *)
Theorem task_query_no_task (part0 : str) (rest : list str) (tx now : Z) (s : Sys W)
    (agent_id : str) (w' : W) :
  resolve_agent ext (listener s) part0 tx = Ok agent_id ->
  pull_task ext agent_id now (world s) = (Ok None, w') ->
  handle_task_query ext cfg (part0 :: rest) tx now s =
    (Ok (x06 :: blit "NOTASK"), Build_Sys (listener s) w' (submitted s)).
Proof.
  intros Hr Hp. unfold handle_task_query, bind, get_listener, call, ret.
  rewrite Hr, Hp. reflexivity.
Qed.

End Dispatch.

Lemma single_label_cut_witness :
  ~ In "."%char (lit "fooba") /\ ~ In (lit "fooba") keywords /\
  handle_agent_query (sim_externals []) c2_test (lit "foobar.c2.test") DNSType_TXT 1 0 (start []) =
    (Ok None, start []).
Proof.
  assert (H1 : ~ In "."%char (lit "fooba")) by (cbn; intuition discriminate).
  assert (H2 : ~ In (lit "fooba") keywords) by (cbn; intuition discriminate).
  split; [exact H1|]. split; [exact H2|].
  exact (proj1 (single_label_cut (sim_externals []) c2_test (lit "fooba") "r"%char
                  DNSType_TXT 1 0 (start []) H1 H2)).
Defined.

Lemma foreign_name_ignored_witness :
  endswith (lit "www.example.org") (lit "." ++ domain c2_test) = false /\
  handle_agent_query (sim_externals []) c2_test (lit "www.example.org") DNSType_TXT 1 0 (start []) =
    (Ok None, start []).
Proof.
  split; [vm_compute; reflexivity|].
  exact (proj1 (foreign_name_ignored (sim_externals []) c2_test (lit "www.example.org") "x"%char
                  DNSType_TXT 1 0 (start []) ltac:(vm_compute; reflexivity))).
Defined.


Lemma task_query_no_task_witness :
  resolve_agent (sim_externals []) (listener (start [])) a1_label 1 = Ok (lit "a1") /\
  handle_task_query (sim_externals []) c2_test [a1_label] 1 0 (start []) =
    (Ok (x06 :: blit "NOTASK"), start []).
Proof.
  split; [vm_compute; reflexivity|].
  apply (task_query_no_task (sim_externals []) c2_test a1_label [] 1 0 (start []) (lit "a1") []);
    vm_compute; reflexivity.
Defined.


(** ** Buffers in use, and the start-of-authority record *)

(** A chunk that arrives for a buffer already there is stored in it, and
    the buffer keeps the total and the timestamp of its first chunk: the
    sweep counts from the first chunk, not from the last one. *)
Theorem buffer_keeps_first_timestamp {W : Type} (ext : Externals W) (parts : list str)
    (tx now : Z) (s : Sys W) (mid : str) (n t : Z) (d : bytes) (b : Buffer) :
  parse_chunk ext parts = Some (mid, n, t, d) ->
  incoming_messages (listener s) !! mid = Some b ->
  incoming_messages (listener (snd (handle_result_query ext parts tx now s))) !! mid =
    Some {| chunks := <[n := d]> (chunks b);
            total_chunks := total_chunks b;
            timestamp := timestamp b |}.
Proof.
  intros Hp Hb. rewrite handle_result_query_eq, Hp. unfold with_listener. cbn [snd listener].
  rewrite store_chunk_lookup, Hb. reflexivity.
Qed.

Lemma buffer_keeps_first_timestamp_witness :
  let s := Build_Sys (store_chunk (lit "m1") 0 3 (blit "foobar") 5 new_listener) [] [] in
  parse_chunk (sim_externals []) [lit "m1"; lit "1"; lit "4"; lit "mzxw6ytboi"] =
    Some (lit "m1", 1, 4, blit "foobar") /\
  incoming_messages
    (listener (snd (handle_result_query (sim_externals [])
                      [lit "m1"; lit "1"; lit "4"; lit "mzxw6ytboi"] 9 700000000 s))) !! lit "m1" =
    Some {| chunks := <[1 := blit "foobar"]> {[0 := blit "foobar"]};
            total_chunks := 3; timestamp := 5 |}.
Proof.
  cbv zeta. split; [vm_compute; reflexivity|].
  exact (buffer_keeps_first_timestamp (sim_externals [])
    [lit "m1"; lit "1"; lit "4"; lit "mzxw6ytboi"] 9 700000000
    (Build_Sys (store_chunk (lit "m1") 0 3 (blit "foobar") 5 new_listener) [] [])
    (lit "m1") 1 4 (blit "foobar") (foobar_buffer 3 5)
    ltac:(vm_compute; reflexivity) ltac:(vm_compute; reflexivity)).
Defined.

(** Without a configured name server [build_soa_record] raises on
    [ns_records[0]], and an SOA question makes the loop over the questions
    raise. *)
Theorem soa_needs_name_server {W : Type} (ext : Externals W) (cfg : Config)
    (qname : str) (tx now : Z) (acc : list answer) (s : Sys W) :
  ns_records cfg = [] ->
  build_soa_record cfg now = Raise IndexError /\
  answer_question ext cfg (qname, DNSType_SOA, DNSClass_IN) tx now acc s = (Raise IndexError, s).
Proof.
  intros H. assert (Hb : build_soa_record cfg now = Raise IndexError)
    by (unfold build_soa_record; rewrite H; reflexivity).
  split; [exact Hb|]. unfold answer_question. cbn [Z.eqb DNSClass_IN DNSType_SOA DNSType_A
    DNSType_TXT DNSType_NS Pos.eqb negb]. unfold bind, lift. rewrite Hb. reflexivity.
Qed.

Lemma soa_needs_name_server_witness :
  let cfg := {| domain := lit "c2.test"; ns_records := []; soa_email := lit "a@c2.test";
                ttl := 300; chunk_size := 50; response_ip := lit "127.0.0.1" |} in
  ns_records cfg = [] /\
  answer_question (sim_externals []) cfg (lit "c2.test", DNSType_SOA, DNSClass_IN) 4660 0 []
    (start []) = (Raise IndexError, start []).
Proof.
  cbv zeta. split; [reflexivity|].
  exact (proj2 (soa_needs_name_server (sim_externals [])
    {| domain := lit "c2.test"; ns_records := []; soa_email := lit "a@c2.test";
       ttl := 300; chunk_size := 50; response_ip := lit "127.0.0.1" |}
    (lit "c2.test") 4660 0 [] (start []) eq_refl)).
Defined.

Lemma process_query_answers_witness :
  parse_dns_query [x12; x34; x00] = Raise StructError /\
  exists response,
    fst (process_query (sim_externals []) c2_test [x12; x34; x00] 0 (start [])) = Ok response /\
    response = servfail_bytes x12 x34.
Proof.
  split; [reflexivity|].
  destruct (process_query_answers (sim_externals []) c2_test x12 x34 [x00] 0 (start []))
    as (response & H1 & H2).
  exists response. split; [exact H1|]. apply (H2 StructError). reflexivity.
Defined.
